(** * Verification of VKR.py: a reference service on childhood infectious
      diseases

    The development embeds the data model, the in-memory tables, the
    load-time statistics generator and the request handlers of [VKR.py]
    and proves the properties stated in the specification of the service.

    Conventions of the embedding:
    - a Python [int] is a [Z];
    - a Python [str] is the list of its Unicode code points ([list N]);
      literals are written as UTF-8 text and decoded by [u];
    - a Python [float] is an IEEE 754 binary64 number, modelled by
      [spec_float] with the operations of [SpecFloat] at precision 53;
    - a function that may raise returns in the error monad [Exc];
    - a [dict] is an association list in insertion order. *)

From Stdlib Require Import ZArith NArith List String Ascii Bool Lia.
From Stdlib Require Import Permutation Sorted.
From Stdlib Require Import Floats.SpecFloat.
Import ListNotations.

Local Open Scope Z_scope.

(* ===================================================================== *)
(** * Exceptions *)
(* ===================================================================== *)

(** The exceptions that the modelled code paths can raise. *)
Inductive PyExc : Type :=
| OverflowError
| ValueError
| KeyError
| ValidationError
| HTTPException (status_code : Z) (detail : list N).

Definition Exc (A : Type) : Type := (PyExc + A)%type.

Definition ret {A : Type} (a : A) : Exc A := inr a.
Definition raise {A : Type} (e : PyExc) : Exc A := inl e.

Definition bind {A B : Type} (c : Exc A) (k : A -> Exc B) : Exc B :=
  match c with
  | inl e => inl e
  | inr a => k a
  end.

Declare Scope exc_scope.
Delimit Scope exc_scope with exc.
Notation "x <- c ;; k" := (bind c (fun x => k))
  (at level 61, c at next level, right associativity) : exc_scope.
Local Open Scope exc_scope.

(** [for x in xs: body] where the body updates a state and may raise. *)
Fixpoint for_each {A S : Type} (xs : list A) (body : A -> S -> Exc S) (s : S)
  : Exc S :=
  match xs with
  | [] => ret s
  | x :: rest => s' <- body x s ;; for_each rest body s'
  end.

(* ===================================================================== *)
(** * Python strings *)
(* ===================================================================== *)

Definition str : Type := list N.

Module Utf8.

Local Open Scope N_scope.

(** Code points of a well-formed UTF-8 byte sequence. *)
Fixpoint decode (bs : list N) : list N :=
  match bs with
  | [] => []
  | b0 :: r0 =>
      if b0 <? 128 then b0 :: decode r0
      else if b0 <? 224 then
        match r0 with
        | b1 :: r1 => ((b0 - 192) * 64 + (b1 - 128)) :: decode r1
        | _ => []
        end
      else if b0 <? 240 then
        match r0 with
        | b1 :: b2 :: r2 =>
            ((b0 - 224) * 4096 + (b1 - 128) * 64 + (b2 - 128)) :: decode r2
        | _ => []
        end
      else
        match r0 with
        | b1 :: b2 :: b3 :: r3 =>
            ((b0 - 240) * 262144 + (b1 - 128) * 4096 + (b2 - 128) * 64
             + (b3 - 128)) :: decode r3
        | _ => []
        end
  end.

End Utf8.

(** The [str] denoted by a literal of the source text. *)
Definition u (s : string) : str :=
  Utf8.decode (map N_of_ascii (list_ascii_of_string s)).

Module Str.

Local Open Scope N_scope.

(** [bool(s)]: a string is truthy iff it is not empty. *)
Definition truthy (s : str) : bool :=
  match s with
  | [] => false
  | _ :: _ => true
  end.

(** [a == b] *)
Fixpoint eqb (a b : str) : bool :=
  match a, b with
  | [], [] => true
  | x :: a', y :: b' => (x =? y) && eqb a' b'
  | _, _ => false
  end.

(** [a < b]: lexicographic order on code points. *)
Fixpoint ltb (a b : str) : bool :=
  match a, b with
  | _, [] => false
  | [], _ :: _ => true
  | x :: a', y :: b' => (x <? y) || ((x =? y) && ltb a' b')
  end.

(** [str.isspace] on one code point: the Unicode white space characters. *)
Definition isspace (c : N) : bool :=
  ((9 <=? c) && (c <=? 13)) || ((28 <=? c) && (c <=? 32))
  || (c =? 133) || (c =? 160) || (c =? 5760)
  || ((8192 <=? c) && (c <=? 8202))
  || (c =? 8232) || (c =? 8233) || (c =? 8239) || (c =? 8287)
  || (c =? 12288).

(** Lower-case mapping of one code point.  The mapping covers the blocks
    Basic Latin, Latin-1 Supplement and the Cyrillic capital letters
    U+0400..U+042F; the text of the service uses no other cased letters,
    and every other code point is left as it is. *)
Definition lower_cp (c : N) : N :=
  if (65 <=? c) && (c <=? 90) then c + 32
  else if (192 <=? c) && (c <=? 222) && negb (c =? 215) then c + 32
  else if (1024 <=? c) && (c <=? 1039) then c + 80
  else if (1040 <=? c) && (c <=? 1071) then c + 32
  else c.

(** [s.lower()] *)
Definition lower (s : str) : str := map lower_cp s.

Fixpoint lstrip (s : str) : str :=
  match s with
  | [] => []
  | c :: s' => if isspace c then lstrip s' else s
  end.

Definition rstrip (s : str) : str := rev (lstrip (rev s)).

(** [s.strip()] *)
Definition strip (s : str) : str := rstrip (lstrip s).

(** [s.startswith(p)] *)
Fixpoint startswith (p s : str) : bool :=
  match p, s with
  | [], _ => true
  | _ :: _, [] => false
  | x :: p', y :: s' => (x =? y) && startswith p' s'
  end.

(** [sub in s] *)
Fixpoint contains (sub s : str) : bool :=
  startswith sub s
  || match s with
     | [] => false
     | _ :: s' => contains sub s'
     end.

End Str.

(** [set(xs)] of strings, as a duplicate-free list.  The iteration order of
    a Python set is unspecified; [sorted_permutation_invariant] shows that
    the order chosen here is immaterial once the set is sorted. *)
Fixpoint str_mem (x : str) (l : list str) : bool :=
  match l with
  | [] => false
  | y :: l' => Str.eqb x y || str_mem x l'
  end.

Fixpoint set_of (xs : list str) : list str :=
  match xs with
  | [] => []
  | x :: xs' =>
      let s := set_of xs' in
      if str_mem x s then s else x :: s
  end.

Fixpoint insert_sorted (x : str) (l : list str) : list str :=
  match l with
  | [] => [x]
  | y :: l' => if Str.ltb y x then y :: insert_sorted x l' else x :: l
  end.

(** [sorted(xs)] on strings. *)
Definition sorted (xs : list str) : list str :=
  fold_right insert_sorted [] xs.

(* ===================================================================== *)
(** * Python floats *)
(* ===================================================================== *)

Module Float.

Definition prec : Z := 53.
Definition emax : Z := 1024.

Definition t : Type := spec_float.

(** [float(z)] as done implicitly in mixed arithmetic: round to nearest
    even; a magnitude beyond the largest float raises. *)
Definition of_int (z : Z) : Exc t :=
  match binary_normalize prec emax z 0 false with
  | S754_infinity _ => raise OverflowError
  | f => ret f
  end.

(** The float denoted by the decimal literal [n/10^k], written as the
    fraction [n / d]: the correctly rounded quotient, which is the
    nearest binary64 number to the decimal. *)
Definition literal (n d : Z) : t :=
  SFdiv prec emax (binary_normalize prec emax n 0 false)
                  (binary_normalize prec emax d 0 false).

Definition add (x y : t) : t := SFadd prec emax x y.
Definition mul (x y : t) : t := SFmul prec emax x y.

(** [int(x)]: truncation toward zero. *)
Definition to_int (x : t) : Exc Z :=
  match x with
  | S754_zero _ => ret 0
  | S754_infinity _ => raise OverflowError
  | S754_nan => raise ValueError
  | S754_finite s m e =>
      let a := match e with
               | Z0 => Zpos m
               | Zpos p => Zpos m * 2 ^ Zpos p
               | Zneg p => Zpos m / 2 ^ Zpos p
               end in
      ret (if s then - a else a)
  end.

(** [i * x] and [x * i] with an [int] operand [i]. *)
Definition int_mul (i : Z) (x : t) : Exc t :=
  fi <- of_int i ;; ret (mul fi x).
Definition mul_int (x : t) (i : Z) : Exc t :=
  fi <- of_int i ;; ret (mul x fi).

End Float.

(* ===================================================================== *)
(** * Data model *)
(* ===================================================================== *)

Inductive Season : Type := winter | spring | summer | autumn.

Definition Season_value (s : Season) : str :=
  match s with
  | winter => u "Зима"
  | spring => u "Весна"
  | summer => u "Лето"
  | autumn => u "Осень"
  end.

Definition Season_eqb (a b : Season) : bool :=
  match a, b with
  | winter, winter | spring, spring | summer, summer | autumn, autumn => true
  | _, _ => false
  end.

Inductive AgeGroup : Type := preschool | under7 | children.

Definition AgeGroup_value (a : AgeGroup) : str :=
  match a with
  | preschool => u "Дошкольный возраст"
  | under7 => u "Дети до 7 лет"
  | children => u "Детский возраст"
  end.

Definition AgeGroup_eqb (a b : AgeGroup) : bool :=
  match a, b with
  | preschool, preschool | under7, under7 | children, children => true
  | _, _ => false
  end.

Module Symptom.
Record t : Type := mk {
  id : Z;
  name : str;
  description : option str
}.
End Symptom.
Abbreviation mkSymptom := Symptom.mk.

Module Disease.
Record t : Type := mk {
  id : Z;
  name : str;
  pathogen_type : str;
  transmission : str;
  age_group : AgeGroup;
  symptoms : list Symptom.t;
  prevention : option str
}.
End Disease.
Abbreviation mkDisease := Disease.mk.

Module DiseaseShort.
Record t : Type := mk {
  id : Z;
  name : str;
  age_group : AgeGroup;
  pathogen_type : str
}.
End DiseaseShort.

Module StatisticItem.
Record t : Type := mk {
  disease_id : Z;
  year : Z;
  season : Season;
  cases : Z
}.

(** The constructor of the model class: [cases] is declared with
    [Field(..., ge=0)], so a negative count is rejected. *)
Definition new (disease_id year : Z) (season : Season) (cases : Z) : Exc t :=
  if 0 <=? cases then ret (mk disease_id year season cases)
  else raise ValidationError.
End StatisticItem.

Module DiseaseWithStats.
(** [class DiseaseWithStats(Disease)]: the fields of [Disease] and
    [statistics]. *)
Record t : Type := mk {
  id : Z;
  name : str;
  pathogen_type : str;
  transmission : str;
  age_group : AgeGroup;
  symptoms : list Symptom.t;
  prevention : option str;
  statistics : list StatisticItem.t
}.
End DiseaseWithStats.

(* ===================================================================== *)
(** * The in-memory tables *)
(* ===================================================================== *)

Definition SYMPTOMS_DB : list Symptom.t :=
  [
    mkSymptom 1 (u "Лихорадка") (Some (u "Повышенная температура тела"));
    mkSymptom 2 (u "Сыпь") (Some (u "Пятнистая или папулёзная сыпь"));
    mkSymptom 3 (u "Кашель") (Some (u "Сухой или влажный кашель"));
    mkSymptom 4 (u "Насморк") (Some (u "Выделения из носа"));
    mkSymptom 5 (u "Головная боль") (Some (u "Боль различной интенсивности"));
    mkSymptom 6 (u "Рвота") (Some (u "Обратное движение содержимого желудка"));
    mkSymptom 7 (u "Диарея") (Some (u "Частый жидкий стул"));
    mkSymptom 8 (u "Боль в горле") (Some (u "Воспаление слизистой горла"));
    mkSymptom 9 (u "Конъюнктивит") (Some (u "Покраснение и воспаление глаз"));
    mkSymptom 10 (u "Увеличение лимфоузлов") (Some (u "Лимфаденопатия"))
  ].

(** [{s.id: s for s in SYMPTOMS_DB}]: a later entry replaces an earlier one
    with the same key. *)
Fixpoint dict_set (m : list (Z * Symptom.t)) (k : Z) (v : Symptom.t)
  : list (Z * Symptom.t) :=
  match m with
  | [] => [(k, v)]
  | (k', v') :: m' =>
      if k' =? k then (k', v) :: m' else (k', v') :: dict_set m' k v
  end.

Fixpoint dict_get (m : list (Z * Symptom.t)) (k : Z) : Exc Symptom.t :=
  match m with
  | [] => raise KeyError
  | (k', v) :: m' => if k' =? k then ret v else dict_get m' k
  end.

Definition SYMPTOMS_BY_ID : list (Z * Symptom.t) :=
  fold_left (fun m s => dict_set m (Symptom.id s) s) SYMPTOMS_DB [].

(** [SYMPTOMS_BY_ID[k]] inside the literal of [DISEASES_DB].  A missing key
    would abort the load; [symptoms_resolved] shows that every key used by
    the table is present, so the fallback record never appears. *)
Definition SYMPTOM (k : Z) : Symptom.t :=
  match dict_get SYMPTOMS_BY_ID k with
  | inr s => s
  | inl _ => mkSymptom k [] None
  end.

Definition DISEASES_DB : list Disease.t :=
  [
    mkDisease 1 (u "Корь") (u "Вирус") (u "Воздушно-капельный")
      preschool [SYMPTOM 1; SYMPTOM 2; SYMPTOM 10]
      (Some (u "Вакцинация по национальному календарю"));
    mkDisease 2 (u "Коклюш") (u "Бактерия") (u "Воздушно-капельный")
      under7 [SYMPTOM 1; SYMPTOM 3]
      (Some (u "Вакцинация (АКДС)"));
    mkDisease 3 (u "Ветряная оспа") (u "Вирус") (u "Воздушно-капельный")
      children [SYMPTOM 2; SYMPTOM 1]
      (Some (u "Изоляция заболевших, вакцинация"));
    mkDisease 4 (u "Краснуха") (u "Вирус") (u "Воздушно-капельный")
      children [SYMPTOM 2; SYMPTOM 9]
      (Some (u "Вакцинация (КПК)"));
    mkDisease 5 (u "Скарлатина") (u "Бактерия") (u "Контактно-бытовой")
      children [SYMPTOM 8; SYMPTOM 2; SYMPTOM 1]
      (Some (u "Своевременное назначение антибиотиков"));
    mkDisease 6 (u "Свинка (эпидемический паротит)") (u "Вирус") (u "Воздушно-капельный")
      children [SYMPTOM 1; SYMPTOM 10]
      (Some (u "Вакцинация (КПК)"));
    mkDisease 7 (u "Ротавирусная инфекция") (u "Вирус") (u "Фекально-оральный")
      under7 [SYMPTOM 7; SYMPTOM 6; SYMPTOM 1]
      (Some (u "Гигиена, оральная регидратация"));
    mkDisease 8 (u "Менингококковая инфекция") (u "Бактерия") (u "Воздушно-капельный")
      children [SYMPTOM 1; SYMPTOM 5; SYMPTOM 10]
      (Some (u "Немедленное начало лечения, вакцинация"));
    mkDisease 9 (u "Аденовирусная инфекция") (u "Вирус") (u "Воздушно-капельный")
      preschool [SYMPTOM 4; SYMPTOM 7; SYMPTOM 9]
      (Some (u "Соблюдение гигиены, изоляция заболевших"));
    mkDisease 10 (u "Энтеровирусная инфекция") (u "Вирус") (u "Фекально-оральный")
      children [SYMPTOM 7; SYMPTOM 6; SYMPTOM 5]
      (Some (u "Гигиена, контроль качества воды и пищи"));
    mkDisease 11 (u "Грипп") (u "Вирус") (u "Воздушно-капельный")
      children [SYMPTOM 1; SYMPTOM 5; SYMPTOM 3]
      (Some (u "Ежегодная вакцинация, изоляция заболевших"));
    mkDisease 12 (u "ОРВИ") (u "Вирус") (u "Воздушно-капельный")
      children [SYMPTOM 4; SYMPTOM 3; SYMPTOM 5]
      (Some (u "Гигиена и поддерживающая терапия"));
    mkDisease 13 (u "Ангина (острый тонзиллит)") (u "Бактерия") (u "Контактный")
      children [SYMPTOM 8; SYMPTOM 1; SYMPTOM 5]
      (Some (u "Рациональная антибактериальная терапия"));
    mkDisease 14 (u "Дифтерия") (u "Бактерия") (u "Воздушно-капельный")
      children [SYMPTOM 8; SYMPTOM 1]
      (Some (u "Вакцинация (АКДС)"));
    mkDisease 15 (u "Пищевые токсикоинфекции") (u "Бактерии") (u "Фекально-оральный")
      children [SYMPTOM 6; SYMPTOM 7]
      (Some (u "Соблюдение правил пищевой безопасности"));
    mkDisease 16 (u "Норовирусная инфекция") (u "Вирус") (u "Фекально-оральный")
      under7 [SYMPTOM 7; SYMPTOM 6; SYMPTOM 5]
      (Some (u "Гигиена рук, контроль качества пищи и воды"));
    mkDisease 17 (u "Коронавирусная инфекция (у детей)") (u "Вирус") (u "Воздушно-капельный")
      children [SYMPTOM 1; SYMPTOM 3; SYMPTOM 4]
      (Some (u "Гигиена, масочный режим в сезон подъёма заболеваемости"));
    mkDisease 18 (u "Парагрипп") (u "Вирус") (u "Воздушно-капельный")
      children [SYMPTOM 3; SYMPTOM 4; SYMPTOM 1]
      (Some (u "Изоляция заболевших, гигиена рук"));
    mkDisease 19 (u "Эпидемический конъюнктивит") (u "Вирус") (u "Контактно-бытовой")
      children [SYMPTOM 9; SYMPTOM 1]
      (Some (u "Гигиена рук, индивидуальные полотенца"));
    mkDisease 20 (u "Инфекционный мононуклеоз") (u "Вирус") (u "Контактно-бытовой")
      children [SYMPTOM 1; SYMPTOM 10; SYMPTOM 5]
      (Some (u "Ограничение бытовых контактов в период болезни"));
    mkDisease 21 (u "Цитомегаловирусная инфекция") (u "Вирус") (u "Контактно-бытовой")
      children [SYMPTOM 1; SYMPTOM 5]
      (Some (u "Соблюдение гигиены, обследование беременных"));
    mkDisease 22 (u "Сальмонеллёз") (u "Бактерия") (u "Фекально-оральный")
      children [SYMPTOM 7; SYMPTOM 6; SYMPTOM 1]
      (Some (u "Термическая обработка продуктов, гигиена"));
    mkDisease 23 (u "Шигеллёз (бактериальная дизентерия)") (u "Бактерия") (u "Фекально-оральный")
      children [SYMPTOM 7; SYMPTOM 1; SYMPTOM 5]
      (Some (u "Безопасная вода, санитарно-гигиенические мероприятия"));
    mkDisease 24 (u "Лямблиоз") (u "Паразит") (u "Фекально-оральный")
      children [SYMPTOM 7; SYMPTOM 5]
      (Some (u "Кипячение воды, мытьё рук и овощей"));
    mkDisease 25 (u "Кишечная эшерихиозная инфекция") (u "Бактерия") (u "Фекально-оральный")
      under7 [SYMPTOM 7; SYMPTOM 6]
      (Some (u "Соблюдение санитарных норм, контроль питания детей"));
    mkDisease 26 (u "Герпетическая инфекция (простого герпеса)") (u "Вирус") (u "Контактно-бытовой")
      children [SYMPTOM 1; SYMPTOM 8]
      (Some (u "Исключение тесных контактов в период высыпаний"));
    mkDisease 27 (u "Вирусный гепатит А") (u "Вирус") (u "Фекально-оральный")
      children [SYMPTOM 1; SYMPTOM 6; SYMPTOM 7]
      (Some (u "Вакцинация, безопасная вода и пища"));
    mkDisease 28 (u "Вирусный гепатит B") (u "Вирус") (u "Контактный")
      children [SYMPTOM 1; SYMPTOM 5]
      (Some (u "Вакцинация, одноразовые инструменты"));
    mkDisease 29 (u "Клещевой энцефалит") (u "Вирус") (u "Трансмиссивный")
      children [SYMPTOM 1; SYMPTOM 5]
      (Some (u "Вакцинация, защита от клещей"));
    mkDisease 30 (u "Болезнь Лайма (боррелиоз)") (u "Бактерия") (u "Трансмиссивный")
      children [SYMPTOM 2; SYMPTOM 5; SYMPTOM 10]
      (Some (u "Защита от клещей, раннее удаление клеща"));
    mkDisease 31 (u "Стафилококковая кожная инфекция") (u "Бактерия") (u "Контактно-бытовой")
      children [SYMPTOM 2; SYMPTOM 1]
      (Some (u "Гигиена кожи, обработка микротравм"));
    mkDisease 32 (u "Импетиго") (u "Бактерия") (u "Контактно-бытовой")
      children [SYMPTOM 2]
      (Some (u "Гигиена, изоляция ребёнка до заживления элементов"));
    mkDisease 33 (u "Педикулёз") (u "Паразит") (u "Контактно-бытовой")
      children [SYMPTOM 5]
      (Some (u "Регулярный осмотр волос, обработка головных уборов"));
    mkDisease 34 (u "Стрептодермия") (u "Бактерия") (u "Контактно-бытовой")
      children [SYMPTOM 2]
      (Some (u "Гигиена, обработка кожных повреждений"));
    mkDisease 35 (u "Острый бронхит") (u "Вирус") (u "Воздушно-капельный")
      children [SYMPTOM 3; SYMPTOM 4; SYMPTOM 1]
      (Some (u "Избегать переохлаждения, санация очагов инфекции"));
    mkDisease 36 (u "Пневмония (бактериальная)") (u "Бактерия") (u "Воздушно-капельный")
      children [SYMPTOM 3; SYMPTOM 1; SYMPTOM 5]
      (Some (u "Вакцинация против пневмококка, своевременное лечение ОРВИ"));
    mkDisease 37 (u "Пневмония (вирусная)") (u "Вирус") (u "Воздушно-капельный")
      children [SYMPTOM 3; SYMPTOM 4; SYMPTOM 1]
      (Some (u "Профилактика ОРВИ, изоляция заболевших"));
    mkDisease 38 (u "Острый синусит") (u "Бактерия") (u "Воздушно-капельный")
      children [SYMPTOM 4; SYMPTOM 5; SYMPTOM 1]
      (Some (u "Лечение ринита, профилактика переохлаждения"));
    mkDisease 39 (u "Острый средний отит") (u "Бактерия") (u "Восходящий путь из носоглотки")
      children [SYMPTOM 1; SYMPTOM 5]
      (Some (u "Лечение респираторных инфекций, защита ушей от воды"));
    mkDisease 40 (u "Вирусный фарингит") (u "Вирус") (u "Воздушно-капельный")
      children [SYMPTOM 8; SYMPTOM 1; SYMPTOM 5]
      (Some (u "Гигиена, ограничение контактов в период заболеваемости"));
    mkDisease 41 (u "Мезаденит (вирусной этиологии)") (u "Вирус") (u "Фекально-оральный")
      children [SYMPTOM 1; SYMPTOM 5]
      (Some (u "Гигиена питания и рук"));
    mkDisease 42 (u "Токсоплазмоз (у детей)") (u "Паразит") (u "Контактно-бытовой")
      children [SYMPTOM 10; SYMPTOM 5]
      (Some (u "Термическая обработка мяса, гигиена при уходе за животными"));
    mkDisease 43 (u "Энтеробиоз (глистная инвазия)") (u "Паразит") (u "Фекально-оральный")
      children [SYMPTOM 7; SYMPTOM 5]
      (Some (u "Гигиена рук, коротко подстриженные ногти, обработка постельного белья"));
    mkDisease 44 (u "Кандидоз полости рта (молочница)") (u "Грибок") (u "Контактно-бытовой")
      preschool [SYMPTOM 8]
      (Some (u "Гигиена полости рта, стерильность сосок и бутылочек"));
    mkDisease 45 (u "Парвовирусная инфекция (инфекционная эритема)") (u "Вирус") (u "Воздушно-капельный")
      children [SYMPTOM 2; SYMPTOM 1; SYMPTOM 5]
      (Some (u "Изоляция заболевших, соблюдение гигиены"))
  ].

(* ===================================================================== *)
(** * Seasonal statistics, generated at load time *)
(* ===================================================================== *)

Definition YEARS : list Z := [2021; 2022; 2023].

(** The season coefficients chosen by the transmission route; the order of
    the pairs is the insertion order of the dict literal. *)
Definition season_coeffs (transmission : str) : list (Season * Float.t) :=
  if Str.eqb transmission (u "Воздушно-капельный") then
    [ (winter, Float.literal 15 10);
      (spring, Float.literal 11 10);
      (summer, Float.literal 6 10);
      (autumn, Float.literal 10 10) ]
  else if Str.eqb transmission (u "Фекально-оральный") then
    [ (winter, Float.literal 6 10);
      (spring, Float.literal 9 10);
      (summer, Float.literal 16 10);
      (autumn, Float.literal 12 10) ]
  else
    [ (winter, Float.literal 10 10);
      (spring, Float.literal 11 10);
      (summer, Float.literal 9 10);
      (autumn, Float.literal 10 10) ].

(** [year_coeff = 0.9 + 0.1 * (year - YEARS[0])] *)
Definition year_coeff (year : Z) : Exc Float.t :=
  step <- Float.mul_int (Float.literal 1 10) (year - nth 0 YEARS 0) ;;
  ret (Float.add (Float.literal 9 10) step).

(** [int(i * x)] *)
Definition int_of_product (i : Z) (x : Float.t) : Exc Z :=
  p <- Float.int_mul i x ;; Float.to_int p.

(** Body of the innermost loop: one [STATISTICS_DB.append(...)]. *)
Definition append_item (disease : Disease.t) (year base_year : Z)
    (entry : Season * Float.t) (table : list StatisticItem.t)
  : Exc (list StatisticItem.t) :=
  let (season, k) := entry in
  cases <- int_of_product base_year k ;;
  item <- StatisticItem.new (Disease.id disease) year season cases ;;
  ret (table ++ [item]).

(** Body of the loop over [YEARS]. *)
Definition append_year (disease : Disease.t) (base : Z) (year : Z)
    (table : list StatisticItem.t) : Exc (list StatisticItem.t) :=
  yc <- year_coeff year ;;
  base_year <- int_of_product base yc ;;
  let coeffs := season_coeffs (Disease.transmission disease) in
  for_each coeffs (append_item disease year base_year) table.

(** Body of the loop over the diseases. *)
Definition append_disease (disease : Disease.t) (table : list StatisticItem.t)
  : Exc (list StatisticItem.t) :=
  let base := 25 + Disease.id disease * 6 in
  for_each YEARS (append_year disease base) table.

(** The module-level loop that fills [STATISTICS_DB], starting from [[]]. *)
Definition generate_statistics (db : list Disease.t)
  : Exc (list StatisticItem.t) :=
  for_each db append_disease [].

(** The table after the load; [statistics_loaded] shows that the loop
    completes without raising. *)
Definition loaded (c : Exc (list StatisticItem.t)) : list StatisticItem.t :=
  match c with
  | inr table => table
  | inl _ => []
  end.

Definition STATISTICS_DB : list StatisticItem.t :=
  loaded (generate_statistics DISEASES_DB).

Arguments DISEASES_DB : simpl never.
Arguments STATISTICS_DB : simpl never.

(* ===================================================================== *)
(** * Helper functions and request handlers *)
(* ===================================================================== *)

Definition get_disease_or_404 (disease_id : Z) : Exc Disease.t :=
  match find (fun disease => Disease.id disease =? disease_id) DISEASES_DB with
  | Some disease => ret disease
  | None => raise (HTTPException 404 (u "Заболевание не найдено"))
  end.

Definition attach_stats (disease : Disease.t) : DiseaseWithStats.t :=
  let stats :=
    filter (fun s => StatisticItem.disease_id s =? Disease.id disease)
           STATISTICS_DB in
  DiseaseWithStats.mk
    (Disease.id disease) (Disease.name disease)
    (Disease.pathogen_type disease) (Disease.transmission disease)
    (Disease.age_group disease) (Disease.symptoms disease)
    (Disease.prevention disease) stats.

Definition to_short (d : Disease.t) : DiseaseShort.t :=
  DiseaseShort.mk (Disease.id d) (Disease.name d) (Disease.age_group d)
                  (Disease.pathogen_type d).

(** [GET /diseases] *)
Definition list_diseases (transmission : option str)
    (age_group : option AgeGroup) (pathogen_type : option str)
    (q : option str) : Exc (list DiseaseShort.t) :=
  let result := DISEASES_DB in
  let result :=
    match transmission with
    | Some transmission =>
        if Str.truthy transmission then
          let t := Str.strip (Str.lower transmission) in
          filter (fun d => Str.eqb (Str.lower (Disease.transmission d)) t)
                 result
        else result
    | None => result
    end in
  let result :=
    match age_group with
    | Some age_group =>
        if Str.truthy (AgeGroup_value age_group) then
          filter (fun d => AgeGroup_eqb (Disease.age_group d) age_group)
                 result
        else result
    | None => result
    end in
  let result :=
    match pathogen_type with
    | Some pathogen_type =>
        if Str.truthy pathogen_type then
          let p := Str.strip (Str.lower pathogen_type) in
          filter (fun d => Str.eqb (Str.lower (Disease.pathogen_type d)) p)
                 result
        else result
    | None => result
    end in
  let result :=
    match q with
    | Some q =>
        if Str.truthy q then
          let query_norm := Str.strip (Str.lower q) in
          filter (fun d => Str.contains query_norm
                             (Str.lower (Disease.name d)))
                 result
        else result
    | None => result
    end in
  ret (map to_short result).

(** [GET /diseases/{disease_id}] *)
Definition get_disease (disease_id : Z) : Exc DiseaseWithStats.t :=
  disease <- get_disease_or_404 disease_id ;;
  ret (attach_stats disease).

(** [GET /symptoms] *)
Definition list_symptoms : Exc (list Symptom.t) := ret SYMPTOMS_DB.

(** [any(s.id == symptom_id for s in d.symptoms)] *)
Definition has_symptom (symptom_id : Z) (d : Disease.t) : bool :=
  existsb (fun s => Symptom.id s =? symptom_id) (Disease.symptoms d).

(** [GET /search/by-symptom/{symptom_id}] *)
Definition search_by_symptom (symptom_id : Z) : Exc (list DiseaseShort.t) :=
  let result := filter (has_symptom symptom_id) DISEASES_DB in
  match result with
  | [] => raise (HTTPException 404 (u "Нет заболеваний с данным симптомом"))
  | _ :: _ => ret (map to_short result)
  end.

(** [GET /statistics] *)
Definition get_statistics (year : option Z) (season : option Season)
    (disease_id : option Z) : Exc (list StatisticItem.t) :=
  let stats := STATISTICS_DB in
  let stats :=
    match year with
    | Some year => filter (fun s => StatisticItem.year s =? year) stats
    | None => stats
    end in
  let stats :=
    match season with
    | Some season =>
        filter (fun s => Season_eqb (StatisticItem.season s) season) stats
    | None => stats
    end in
  let stats :=
    match disease_id with
    | Some disease_id =>
        filter (fun s => StatisticItem.disease_id s =? disease_id) stats
    | None => stats
    end in
  ret stats.

(** [GET /meta/filters]: a dict with three keys, in insertion order. *)
Definition filter_meta : list (str * list str) :=
  [ (u "age_groups",
     sorted (set_of (map (fun d => AgeGroup_value (Disease.age_group d))
                         DISEASES_DB)));
    (u "transmissions",
     sorted (set_of (map Disease.transmission DISEASES_DB)));
    (u "pathogen_types",
     sorted (set_of (map Disease.pathogen_type DISEASES_DB))) ].

(* ===================================================================== *)
(** * The statistics table as the specification words it *)
(* ===================================================================== *)

(** The generator as the specification describes it, in exact integer
    arithmetic on tenths: base [25 + 6 * id], year coefficient 0.9 plus
    0.1 per year, three route classes with four season multipliers each,
    and truncation after each of the two products. *)
Module Spec.

Inductive Route : Type := airborne | fecal_oral | other.

Definition route_of (transmission : str) : Route :=
  if Str.eqb transmission (u "Воздушно-капельный") then airborne
  else if Str.eqb transmission (u "Фекально-оральный") then fecal_oral
  else other.

Definition seasons : list Season := [winter; spring; summer; autumn].

(** Ten times the season multiplier. *)
Definition multiplier10 (r : Route) (s : Season) : Z :=
  match r, s with
  | airborne, winter => 15 | airborne, spring => 11
  | airborne, summer => 6 | airborne, autumn => 10
  | fecal_oral, winter => 6 | fecal_oral, spring => 9
  | fecal_oral, summer => 16 | fecal_oral, autumn => 12
  | other, winter => 10 | other, spring => 11
  | other, summer => 9 | other, autumn => 10
  end.

Definition base (disease_id : Z) : Z := 25 + 6 * disease_id.

(** Ten times the year coefficient. *)
Definition year_coeff10 (year : Z) : Z := 9 + (year - 2021).

Definition base_year (disease_id year : Z) : Z :=
  Z.quot (base disease_id * year_coeff10 year) 10.

Definition cases (d : Disease.t) (year : Z) (s : Season) : Z :=
  Z.quot (base_year (Disease.id d) year
          * multiplier10 (route_of (Disease.transmission d)) s) 10.

Definition rows (d : Disease.t) : list StatisticItem.t :=
  flat_map
    (fun year =>
       map (fun s => StatisticItem.mk (Disease.id d) year s (cases d year s))
           seasons)
    [2021; 2022; 2023].

Definition table (db : list Disease.t) : list StatisticItem.t :=
  flat_map rows db.

End Spec.

(* ===================================================================== *)
(** * Notions used in the statements *)
(* ===================================================================== *)

(** The strict order of [sorted] on strings. *)
Definition str_lt (a b : str) : Prop := Str.ltb a b = true.

(** A list without repetition, decided with a boolean equality. *)
Fixpoint distinctb {A : Type} (eqb : A -> A -> bool) (l : list A) : bool :=
  match l with
  | [] => true
  | a :: l' => negb (existsb (eqb a) l') && distinctb eqb l'
  end.

(** What every appended row satisfies. *)
Definition row_ok (db : list Disease.t) (s : StatisticItem.t) : Prop :=
  In (StatisticItem.disease_id s) (map Disease.id db)
  /\ In (StatisticItem.year s) YEARS
  /\ 0 <= StatisticItem.cases s.

(** The key of a row of the statistics table. *)
Definition key (s : StatisticItem.t) : Z * Z * Season :=
  (StatisticItem.disease_id s, StatisticItem.year s, StatisticItem.season s).

Definition key_eqb (a b : Z * Z * Season) : bool :=
  let '(d1, y1, s1) := a in
  let '(d2, y2, s2) := b in
  (d1 =? d2) && (y1 =? y2) && Season_eqb s1 s2.

(** The order in which the rows of one disease are generated. *)
Definition generation_order : list (Z * Season) :=
  [ (2021, winter); (2021, spring); (2021, summer); (2021, autumn);
    (2022, winter); (2022, spring); (2022, summer); (2022, autumn);
    (2023, winter); (2023, spring); (2023, summer); (2023, autumn) ].

(** The [Disease] part of a [DiseaseWithStats] record. *)
Definition record_of (r : DiseaseWithStats.t) : Disease.t :=
  Disease.mk
    (DiseaseWithStats.id r) (DiseaseWithStats.name r)
    (DiseaseWithStats.pathogen_type r) (DiseaseWithStats.transmission r)
    (DiseaseWithStats.age_group r) (DiseaseWithStats.symptoms r)
    (DiseaseWithStats.prevention r).

(** [short] is the summary of the disease [d]: it holds the id, the name,
    the age group and the pathogen type of [d]. *)
Definition summarises (short : DiseaseShort.t) (d : Disease.t) : Prop :=
  DiseaseShort.id short = Disease.id d
  /\ DiseaseShort.name short = Disease.name d
  /\ DiseaseShort.age_group short = Disease.age_group d
  /\ DiseaseShort.pathogen_type short = Disease.pathogen_type d.

(** A symptom with the given id occurs in the symptom list of [d]. *)
Definition lists_symptom (symptom_id : Z) (d : Disease.t) : Prop :=
  exists s, In s (Disease.symptoms d) /\ Symptom.id s = symptom_id.

(** The summaries of the diseases of [db] in age group [a]. *)
Definition by_age_group (db : list Disease.t) (a : AgeGroup)
  : list DiseaseShort.t :=
  map to_short (filter (fun d => AgeGroup_eqb (Disease.age_group d) a) db).

(** The conjunction of the constraints of the arguments of
    [get_statistics] on a row [s]; an absent argument constrains nothing. *)
Definition stat_selects (year : option Z) (season : option Season)
    (disease_id : option Z) (s : StatisticItem.t) : bool :=
  match year with
  | Some y => StatisticItem.year s =? y
  | None => true
  end
  && match season with
     | Some x => Season_eqb (StatisticItem.season s) x
     | None => true
     end
  && match disease_id with
     | Some i => StatisticItem.disease_id s =? i
     | None => true
     end.

(** The keys generated for one disease id, in generation order. *)
Definition keys_of (disease_id : Z) : list (Z * Z * Season) :=
  map (fun ys => (disease_id, fst ys, snd ys)) generation_order.

(** On the table [db], filtering with [sel] by a label of the field [f] is
    filtering by equality with the label. *)
Definition labels_select_exactly (db : list Disease.t) (f : Disease.t -> str)
    (sel : str -> Disease.t -> bool) : bool :=
  forallb (fun d0 =>
             forallb (fun d => Bool.eqb (sel (f d0) d) (Str.eqb (f d) (f d0)))
                     db)
          db.

(** The loop body for one disease, as a function of the id and of the
    season coefficients of the disease. *)
Definition run_disease (i : Z) (coeffs : list (Season * Float.t))
    (table : list StatisticItem.t) : Exc (list StatisticItem.t) :=
  for_each YEARS
    (fun year table =>
       yc <- year_coeff year ;;
       base_year <- int_of_product (25 + i * 6) yc ;;
       for_each coeffs
         (fun entry table =>
            let (season, k) := entry in
            cases <- int_of_product base_year k ;;
            item <- StatisticItem.new i year season cases ;;
            ret (table ++ [item]))
         table)
    table.

(** The computation stopped with [ValidationError]. *)
Definition is_ValidationError {A : Type} (c : Exc A) : bool :=
  match c with
  | inl ValidationError => true
  | _ => false
  end.

(** The ids -5, -6, ..., -1000. *)
Definition rejected_ids : list Z := map (fun n => - Z.of_nat n) (seq 5 996).

(** The list that a handler returned, [[]] when it raised. *)
Definition loaded_list {A : Type} (c : Exc (list A)) : list A :=
  match c with
  | inr l => l
  | inl _ => []
  end.

(** The constraint that a text argument of [list_diseases] imposes: none
    when the argument is absent or empty, [test] on its value otherwise. *)
Definition text_filter (arg : option str) (test : str -> bool) : bool :=
  match arg with
  | Some v => if Str.truthy v then test v else true
  | None => true
  end.

(** The conjunction of the constraints of the four arguments on a disease
    [d]; every text value is trimmed and lower-cased before it is used. *)
Definition selects (transmission : option str) (age_group : option AgeGroup)
    (pathogen_type : option str) (q : option str) (d : Disease.t) : bool :=
  text_filter transmission
    (fun v => Str.eqb (Str.lower (Str.strip v))
                      (Str.lower (Disease.transmission d)))
  && match age_group with
     | Some a => AgeGroup_eqb (Disease.age_group d) a
     | None => true
     end
  && text_filter pathogen_type
       (fun v => Str.eqb (Str.lower (Str.strip v))
                         (Str.lower (Disease.pathogen_type d)))
  && text_filter q
       (fun v => Str.contains (Str.lower (Str.strip v))
                              (Str.lower (Disease.name d))).

(** The filter of [list_diseases] as the specification words it: every
    supplied argument constrains, transmission and pathogen type by the
    trimmed value compared without regard to case, [q] by occurring without
    regard to case in the name. *)
Module Claimed.

Definition text_filter (arg : option str) (test : str -> bool) : bool :=
  match arg with
  | Some v => test v
  | None => true
  end.

Definition selects (transmission : option str) (age_group : option AgeGroup)
    (pathogen_type : option str) (q : option str) (d : Disease.t) : bool :=
  text_filter transmission
    (fun v => Str.eqb (Str.lower (Str.strip v))
                      (Str.lower (Disease.transmission d)))
  && match age_group with
     | Some a => AgeGroup_eqb (Disease.age_group d) a
     | None => true
     end
  && text_filter pathogen_type
       (fun v => Str.eqb (Str.lower (Str.strip v))
                         (Str.lower (Disease.pathogen_type d)))
  && text_filter q
       (fun v => Str.contains (Str.lower v) (Str.lower (Disease.name d))).

Definition list_diseases (transmission : option str)
    (age_group : option AgeGroup) (pathogen_type : option str)
    (q : option str) : Exc (list DiseaseShort.t) :=
  ret (map to_short (filter (selects transmission age_group pathogen_type q)
                            DISEASES_DB)).

End Claimed.

(* ===================================================================== *)
(** * Facts on strings *)
(* ===================================================================== *)

Lemma Str_eqb_eq (a b : str) : Str.eqb a b = true <-> a = b.
Proof.
  revert b; induction a as [|x a IH]; intros [|y b]; simpl;
    try (split; [discriminate | discriminate]); try tauto.
  rewrite andb_true_iff, N.eqb_eq, IH.
  split; [intros [-> ->]; reflexivity | intros H; inversion H; auto].
Qed.

Lemma Str_eqb_refl (a : str) : Str.eqb a a = true.
Proof. apply Str_eqb_eq; reflexivity. Qed.

Lemma Str_eqb_neq (a b : str) : Str.eqb a b = false <-> a <> b.
Proof.
  rewrite <- Str_eqb_eq. destruct (Str.eqb a b); split; congruence.
Qed.

Lemma Str_ltb_irrefl (a : str) : Str.ltb a a = false.
Proof.
  induction a as [|x a IH]; simpl; [reflexivity|].
  rewrite N.ltb_irrefl, N.eqb_refl, IH. reflexivity.
Qed.

Lemma Str_ltb_trans (a b c : str) :
  Str.ltb a b = true -> Str.ltb b c = true -> Str.ltb a c = true.
Proof.
  revert b c; induction a as [|x a IH]; intros [|y b] [|z c]; simpl;
    try discriminate; try reflexivity.
  rewrite !orb_true_iff, !andb_true_iff, !N.ltb_lt, !N.eqb_eq.
  intros [Hxy | [Hxy Hab]] [Hyz | [Hyz Hbc]].
  - left; lia.
  - left; lia.
  - left; lia.
  - right; split; [congruence | eapply IH; eassumption].
Qed.

(** The order is total: two strings are equal or one is below the other. *)
Lemma Str_ltb_total (a b : str) :
  Str.ltb a b = false -> a = b \/ Str.ltb b a = true.
Proof.
  revert b; induction a as [|x a IH]; intros [|y b]; simpl;
    try discriminate; auto.
  rewrite orb_false_iff, andb_false_iff, N.ltb_ge, N.eqb_neq.
  intros [Hxy Hor].
  destruct (N.eq_dec x y) as [->|Hne].
  - destruct Hor as [Hor|Hor]; [congruence|].
    destruct (IH _ Hor) as [->|Hlt]; [left; reflexivity|].
    right. rewrite N.eqb_refl, Hlt. apply orb_true_r.
  - right. assert (Hlt : (y < x)%N) by lia.
    apply N.ltb_lt in Hlt. rewrite Hlt. reflexivity.
Qed.

Lemma isspace_lower_cp (c : N) : Str.isspace (Str.lower_cp c) = Str.isspace c.
Proof.
  unfold Str.lower_cp.
  destruct ((65 <=? c)%N && (c <=? 90)%N) eqn:E1;
  [| destruct ((192 <=? c)%N && (c <=? 222)%N && negb (c =? 215)%N) eqn:E2;
     [| destruct ((1024 <=? c)%N && (c <=? 1039)%N) eqn:E3;
        [| destruct ((1040 <=? c)%N && (c <=? 1071)%N) eqn:E4;
           [| reflexivity ]]]];
  unfold Str.isspace;
  repeat match goal with
         | H : _ && _ = true |- _ => apply andb_true_iff in H; destruct H
         | H : (_ <=? _)%N = true |- _ => apply N.leb_le in H
         | H : negb _ = true |- _ => apply negb_true_iff in H
         | H : (_ =? _)%N = false |- _ => apply N.eqb_neq in H
         end;
  repeat match goal with
         | |- context [(?a <=? ?b)%N] =>
             let E := fresh in
             destruct (N.leb_spec a b) as [E|E]; try lia
         | |- context [(?a =? ?b)%N] =>
             let E := fresh in
             destruct (N.eqb_spec a b) as [E|E]; try lia
         end; reflexivity.
Qed.

Lemma lstrip_lower (s : str) :
  Str.lstrip (Str.lower s) = Str.lower (Str.lstrip s).
Proof.
  induction s as [|c s IH]; simpl; [reflexivity|].
  rewrite isspace_lower_cp. destruct (Str.isspace c); [exact IH | reflexivity].
Qed.

Lemma rev_lower (s : str) : rev (Str.lower s) = Str.lower (rev s).
Proof. unfold Str.lower. symmetry. apply map_rev. Qed.

(** Trimming and lower-casing commute. *)
Lemma strip_lower (s : str) :
  Str.strip (Str.lower s) = Str.lower (Str.strip s).
Proof.
  unfold Str.strip, Str.rstrip.
  rewrite lstrip_lower, rev_lower, lstrip_lower, rev_lower. reflexivity.
Qed.

(* ===================================================================== *)
(** * Facts on [set_of] and [sorted] *)
(* ===================================================================== *)

Lemma str_lt_irrefl (a : str) : ~ str_lt a a.
Proof. unfold str_lt. rewrite Str_ltb_irrefl. discriminate. Qed.

Lemma str_lt_trans (a b c : str) : str_lt a b -> str_lt b c -> str_lt a c.
Proof. apply Str_ltb_trans. Qed.

Lemma str_mem_In (x : str) (l : list str) : str_mem x l = true <-> In x l.
Proof.
  induction l as [|y l IH]; simpl; [split; [discriminate | tauto]|].
  rewrite orb_true_iff, Str_eqb_eq, IH. split; intros [H|H]; auto.
Qed.

Lemma set_of_In (x : str) (l : list str) : In x (set_of l) <-> In x l.
Proof.
  induction l as [|y l IH]; simpl; [tauto|].
  destruct (str_mem y (set_of l)) eqn:E.
  - apply str_mem_In in E. rewrite IH. split; [auto|].
    intros [<-|H]; [apply IH; exact E | exact H].
  - simpl. rewrite IH. tauto.
Qed.

Lemma set_of_NoDup (l : list str) : NoDup (set_of l).
Proof.
  induction l as [|y l IH]; simpl; [constructor|].
  destruct (str_mem y (set_of l)) eqn:E; [exact IH|].
  constructor; [|exact IH].
  intros H. apply str_mem_In in H. congruence.
Qed.

Lemma insert_sorted_In (y x : str) (l : list str) :
  In y (insert_sorted x l) <-> y = x \/ In y l.
Proof.
  induction l as [|z l IH]; simpl; [intuition congruence|].
  destruct (Str.ltb z x); simpl; [rewrite IH|]; intuition congruence.
Qed.

Lemma sorted_In (x : str) (l : list str) : In x (sorted l) <-> In x l.
Proof.
  unfold sorted. induction l as [|y l IH]; simpl; [tauto|].
  rewrite insert_sorted_In, IH. intuition congruence.
Qed.

Lemma insert_sorted_strict (x : str) (l : list str) :
  StronglySorted str_lt l -> ~ In x l ->
  StronglySorted str_lt (insert_sorted x l).
Proof.
  induction l as [|y l IH]; simpl; intros Hs Hx.
  - constructor; constructor.
  - inversion Hs as [|? ? Hs' Hall]; subst.
    destruct (Str.ltb y x) eqn:E.
    + constructor.
      * apply IH; [exact Hs' | tauto].
      * apply Forall_forall. intros z Hz.
        apply insert_sorted_In in Hz. destruct Hz as [->|Hz]; [exact E|].
        rewrite Forall_forall in Hall. apply Hall; exact Hz.
    + destruct (Str_ltb_total _ _ E) as [Heq|Hlt]; [subst; tauto|].
      constructor; [exact Hs|].
      constructor; [exact Hlt|].
      apply Forall_forall. intros z Hz. rewrite Forall_forall in Hall.
      eapply str_lt_trans; [exact Hlt | apply Hall; exact Hz].
Qed.

Lemma sorted_strict (l : list str) :
  NoDup l -> StronglySorted str_lt (sorted l).
Proof.
  induction 1 as [|x l Hx Hnd IH]; [constructor|].
  change (sorted (x :: l)) with (insert_sorted x (sorted l)).
  apply insert_sorted_strict; [exact IH|].
  intros H. exact (Hx (proj1 (sorted_In x l) H)).
Qed.

Lemma strictly_sorted_NoDup (l : list str) :
  StronglySorted str_lt l -> NoDup l.
Proof.
  induction 1 as [|x l Hs IH Hall]; constructor; [|exact IH].
  intros Hin. rewrite Forall_forall in Hall.
  exact (str_lt_irrefl x (Hall x Hin)).
Qed.

(** A strictly ascending list is determined by its elements. *)
Lemma strictly_sorted_unique (l l' : list str) :
  StronglySorted str_lt l -> StronglySorted str_lt l' ->
  (forall x, In x l <-> In x l') -> l = l'.
Proof.
  intros Hs; revert l'.
  induction Hs as [|x l Hs IH Hall]; intros l' Hs' Heq.
  - destruct l' as [|y l']; [reflexivity|].
    exfalso. apply (Heq y). left; reflexivity.
  - destruct Hs' as [|y l' Hs' Hall'].
    + exfalso. apply (Heq x). left; reflexivity.
    + rewrite Forall_forall in Hall, Hall'.
      assert (Hxy : x = y).
      { destruct (proj1 (Heq x) (or_introl eq_refl)) as [E|Hx]; [auto|].
        destruct (proj2 (Heq y) (or_introl eq_refl)) as [E|Hy]; [auto|].
        exfalso. apply (str_lt_irrefl x).
        eapply str_lt_trans; [apply Hall; exact Hy | apply Hall'; exact Hx]. }
      subst y. f_equal. apply IH; [exact Hs'|].
      intros z; split; intros Hz.
      * destruct (proj1 (Heq z) (or_intror Hz)) as [E|H]; [|exact H].
        subst z. exfalso. exact (str_lt_irrefl x (Hall x Hz)).
      * destruct (proj2 (Heq z) (or_intror Hz)) as [E|H]; [|exact H].
        subst z. exfalso. exact (str_lt_irrefl x (Hall' x Hz)).
Qed.

(** The result of sorting a set does not depend on the order in which the
    set yields its elements. *)
Lemma sorted_permutation_invariant (l l' : list str) :
  NoDup l -> Permutation l l' -> sorted l' = sorted l.
Proof.
  intros Hnd Hp.
  apply strictly_sorted_unique.
  - apply sorted_strict. eapply Permutation_NoDup; eassumption.
  - apply sorted_strict; exact Hnd.
  - intros x. rewrite !sorted_In. split; intros H.
    + eapply Permutation_in; [apply Permutation_sym; exact Hp | exact H].
    + eapply Permutation_in; [exact Hp | exact H].
Qed.

(** What [sorted(set(xs))] returns: the distinct elements of [xs], strictly
    ascending. *)
Lemma sorted_set_of_spec (xs : list str) :
  StronglySorted str_lt (sorted (set_of xs))
  /\ NoDup (sorted (set_of xs))
  /\ (forall x, In x (sorted (set_of xs)) <-> In x xs).
Proof.
  assert (Hs : StronglySorted str_lt (sorted (set_of xs)))
    by (apply sorted_strict, set_of_NoDup).
  split; [exact Hs|]. split; [apply strictly_sorted_NoDup; exact Hs|].
  intros x. rewrite sorted_In. apply set_of_In.
Qed.

(* ===================================================================== *)
(** * Facts on floats *)
(* ===================================================================== *)

(** The literals of the generator denote the expected binary64 numbers:
    0.9 is [0x1.ccccccccccccdp-1], 0.1 is [0x1.999999999999ap-4], 1.5 is
    exact. *)
Lemma float_literals :
  Float.literal 9 10 = S754_finite false 0x1ccccccccccccd (-53)
  /\ Float.literal 1 10 = S754_finite false 0x1999999999999a (-56)
  /\ Float.literal 11 10 = S754_finite false 0x1199999999999a (-52)
  /\ Float.literal 15 10 = S754_finite false 0x18000000000000 (-52)
  /\ Float.literal 10 10 = S754_finite false 0x10000000000000 (-52).
Proof. repeat split; vm_compute; reflexivity. Qed.

(** [int] truncates toward zero, also below zero. *)
Lemma to_int_truncates :
  Float.to_int (Float.literal 279 10) = inr 27
  /\ Float.to_int (Float.literal (-279) 10) = inr (-27)
  /\ Float.to_int (Float.literal 405 10) = inr 40.
Proof. repeat split; vm_compute; reflexivity. Qed.

(* ===================================================================== *)
(** * Facts on the loaded tables *)
(* ===================================================================== *)

Lemma distinctb_NoDup {A : Type} (eqb : A -> A -> bool) (l : list A) :
  (forall a, eqb a a = true) -> distinctb eqb l = true -> NoDup l.
Proof.
  intros eqb_refl.
  induction l as [|a l IH]; simpl; intros H; [constructor|].
  apply andb_true_iff in H. destruct H as [Hn Hd].
  constructor; [|apply IH; exact Hd].
  intros Hin. apply negb_true_iff in Hn.
  assert (Hex : existsb (eqb a) l = true)
    by (apply existsb_exists; exists a; split; [exact Hin | apply eqb_refl]).
  congruence.
Qed.

(** Every [SYMPTOMS_BY_ID[k]] of the disease table finds its symptom. *)
Lemma symptoms_resolved :
  Forall (fun d => Forall (fun s => In s SYMPTOMS_DB) (Disease.symptoms d))
         DISEASES_DB.
Proof.
  unfold DISEASES_DB.
  repeat (apply Forall_cons; [ cbn [Disease.symptoms] | ]);
    try apply Forall_nil;
    repeat (apply Forall_cons; [ | ]); try apply Forall_nil;
    vm_compute; tauto.
Qed.

Lemma disease_ids : map Disease.id DISEASES_DB = map Z.of_nat (seq 1 45).
Proof. reflexivity. Qed.

Lemma disease_ids_distinct : NoDup (map Disease.id DISEASES_DB).
Proof.
  apply (distinctb_NoDup Z.eqb); [exact Z.eqb_refl|]. vm_compute. reflexivity.
Qed.

(** Two rows of a table with distinct keys that agree on the key are the
    same row. *)
Lemma NoDup_map_inj {A B : Type} (f : A -> B) (l : list A) (a b : A) :
  NoDup (map f l) -> In a l -> In b l -> f a = f b -> a = b.
Proof.
  induction l as [|x l IH]; simpl; intros Hnd Ha Hb Hf; [contradiction|].
  inversion Hnd as [|? ? Hx Hnd']; subst.
  destruct Ha as [->|Ha], Hb as [->|Hb].
  - reflexivity.
  - exfalso. apply Hx. rewrite Hf. apply in_map. exact Hb.
  - exfalso. apply Hx. rewrite <- Hf. apply in_map. exact Ha.
  - apply IH; assumption.
Qed.

(** The load-time loop runs to its end, without an overflow and without a
    rejected record, and produces the table of the specification. *)
Lemma generate_statistics_table :
  generate_statistics DISEASES_DB = inr (Spec.table DISEASES_DB).
Proof. vm_compute. reflexivity. Qed.

Lemma statistics_table : STATISTICS_DB = Spec.table DISEASES_DB.
Proof. unfold STATISTICS_DB. rewrite generate_statistics_table. reflexivity. Qed.

Lemma statistics_loaded : generate_statistics DISEASES_DB = inr STATISTICS_DB.
Proof. rewrite statistics_table. exact generate_statistics_table. Qed.

(** ** A loop invariant for the generator *)

Lemma for_each_invariant {A S : Type} (Q : A -> Prop) (P : S -> Prop)
    (body : A -> S -> Exc S) :
  (forall x s s', Q x -> P s -> body x s = inr s' -> P s') ->
  forall xs s s',
    Forall Q xs -> P s -> for_each xs body s = inr s' -> P s'.
Proof.
  intros Hbody xs.
  induction xs as [|x xs IH]; simpl; intros s s' HQ HP Hrun.
  - inversion Hrun; subst; exact HP.
  - inversion HQ as [|? ? Hx Hxs]; subst.
    unfold bind in Hrun.
    destruct (body x s) as [e|s1] eqn:E; [discriminate|].
    eapply IH; [exact Hxs | | exact Hrun].
    eapply Hbody; eassumption.
Qed.

Lemma append_item_ok (db : list Disease.t) (d : Disease.t)
    (year base_year : Z) (entry : Season * Float.t)
    (table table' : list StatisticItem.t) :
  In d db -> In year YEARS -> Forall (row_ok db) table ->
  append_item d year base_year entry table = inr table' ->
  Forall (row_ok db) table'.
Proof.
  intros Hd Hy Ht. unfold append_item. destruct entry as [season k].
  unfold bind. destruct (int_of_product base_year k) as [e|cases]; [discriminate|].
  unfold StatisticItem.new.
  destruct (0 <=? cases) eqn:E; [|discriminate].
  intros H; inversion H; subst.
  apply Forall_app. split; [exact Ht|].
  constructor; [|constructor].
  unfold row_ok; simpl. repeat split.
  - apply in_map; exact Hd.
  - exact Hy.
  - apply Z.leb_le; exact E.
Qed.

Lemma append_disease_ok (db : list Disease.t) (d : Disease.t)
    (table table' : list StatisticItem.t) :
  In d db -> Forall (row_ok db) table ->
  append_disease d table = inr table' -> Forall (row_ok db) table'.
Proof.
  intros Hd Ht. unfold append_disease.
  apply (for_each_invariant (fun y => In y YEARS) (Forall (row_ok db)));
    [ | apply Forall_forall; auto | exact Ht ].
  intros year t t' Hy HPt. unfold append_year, bind.
  destruct (year_coeff year) as [e|yc]; [discriminate|].
  destruct (int_of_product _ yc) as [e|base_year]; [discriminate|].
  apply (for_each_invariant (fun _ => True) (Forall (row_ok db)));
    [ | apply Forall_forall; auto | exact HPt ].
  intros entry t1 t2 _ Ht1. eapply append_item_ok; eassumption.
Qed.

(** For any disease table on which the loop completes, every generated
    row refers to a disease of the table, lies in the window of [YEARS]
    and has a non-negative count. *)
Lemma generate_statistics_ok (db : list Disease.t)
    (table : list StatisticItem.t) :
  generate_statistics db = inr table -> Forall (row_ok db) table.
Proof.
  unfold generate_statistics.
  apply (for_each_invariant (fun d => In d db) (Forall (row_ok db)));
    [ | apply Forall_forall; auto | constructor ].
  intros d t t' Hd Ht. apply append_disease_ok; assumption.
Qed.

Lemma key_eqb_refl (a : Z * Z * Season) : key_eqb a a = true.
Proof.
  destruct a as [[d y] s]. simpl. rewrite !Z.eqb_refl.
  destruct s; reflexivity.
Qed.

(** ** The rows of one disease *)

Lemma rows_order (d : Disease.t) :
  map (fun s => (StatisticItem.year s, StatisticItem.season s)) (Spec.rows d)
  = generation_order.
Proof. reflexivity. Qed.

Lemma rows_disease_id (d : Disease.t) :
  Forall (fun s => StatisticItem.disease_id s = Disease.id d) (Spec.rows d).
Proof. unfold Spec.rows. simpl. repeat constructor. Qed.

Lemma filter_rows_same (d : Disease.t) :
  filter (fun s => StatisticItem.disease_id s =? Disease.id d) (Spec.rows d)
  = Spec.rows d.
Proof.
  apply forallb_filter_id. apply forallb_forall. intros s Hs.
  pose proof (rows_disease_id d) as H. rewrite Forall_forall in H.
  rewrite (H s Hs). apply Z.eqb_refl.
Qed.

Lemma filter_rows_other (d : Disease.t) (i : Z) :
  Disease.id d <> i ->
  filter (fun s => StatisticItem.disease_id s =? i) (Spec.rows d) = [].
Proof.
  intros Hne.
  assert (E : (Disease.id d =? i) = false) by (apply Z.eqb_neq; exact Hne).
  unfold Spec.rows. simpl. rewrite E. reflexivity.
Qed.

(** In a table with distinct ids, selecting by the id of a disease gives
    exactly the rows generated for that disease. *)
Lemma filter_table (db : list Disease.t) (d : Disease.t) :
  NoDup (map Disease.id db) -> In d db ->
  filter (fun s => StatisticItem.disease_id s =? Disease.id d) (Spec.table db)
  = Spec.rows d.
Proof.
  unfold Spec.table.
  induction db as [|x db IH]; cbn [flat_map map]; intros Hnd Hin;
    [contradiction|].
  inversion Hnd as [|? ? Hx Hnd']; subst.
  rewrite filter_app.
  destruct Hin as [->|Hin].
  - rewrite filter_rows_same.
    assert (E : filter (fun s => StatisticItem.disease_id s =? Disease.id d)
                       (flat_map Spec.rows db) = []).
    { clear IH Hnd Hnd'.
      induction db as [|y db IHdb]; cbn [flat_map map] in *; [reflexivity|].
      rewrite filter_app, filter_rows_other, IHdb; [reflexivity | |].
      - intros H. apply Hx. right. exact H.
      - intros H. apply Hx. left. exact H. }
    rewrite E. apply app_nil_r.
  - rewrite filter_rows_other, (IH Hnd' Hin); [reflexivity|].
    intros H. apply Hx. rewrite H. apply in_map. exact Hin.
Qed.

Lemma attached_rows (d : Disease.t) :
  In d DISEASES_DB ->
  DiseaseWithStats.statistics (attach_stats d) = Spec.rows d.
Proof.
  intros Hd. unfold attach_stats. cbn [DiseaseWithStats.statistics].
  rewrite statistics_table.
  apply filter_table; [exact disease_ids_distinct | exact Hd].
Qed.

(* ===================================================================== *)
(** * The statistics generator *)
(* ===================================================================== *)

(** C1: for every disease of the table the generator computes the base
    [25 + 6 * id], scales it for each year of 2021..2023 by 0.9 plus 0.1
    per year and truncates, then multiplies by the season multiplier of the
    transmission route and truncates again: the table built with binary64
    arithmetic is the table of [Spec], computed exactly; the year
    coefficients are the floats 0.9, 1.0 and 1.1.  For disease 1 (airborne)
    the base is 31, the base of 2021 is 27 and the winter count of 2021
    is 40. *)
Theorem statistics_follow_formula :
  generate_statistics DISEASES_DB = inr STATISTICS_DB
  /\ STATISTICS_DB = Spec.table DISEASES_DB
  /\ (year_coeff 2021 = inr (Float.literal 9 10)
      /\ year_coeff 2022 = inr (Float.literal 10 10)
      /\ year_coeff 2023 = inr (Float.literal 11 10))
  /\ (exists d,
        nth_error DISEASES_DB 0 = Some d
        /\ Disease.id d = 1
        /\ Spec.route_of (Disease.transmission d) = Spec.airborne
        /\ Spec.base (Disease.id d) = 31
        /\ Spec.base_year (Disease.id d) 2021 = 27
        /\ Spec.cases d 2021 winter = 40
        /\ int_of_product (25 + Disease.id d * 6) (Float.literal 9 10)
           = inr 27
        /\ int_of_product 27 (Float.literal 15 10) = inr 40)
  /\ filter (fun s => key_eqb (key s) (1, 2021, winter)) STATISTICS_DB
     = [StatisticItem.mk 1 2021 winter 40].
Proof.
  split; [exact statistics_loaded|].
  split; [exact statistics_table|].
  split; [repeat split; vm_compute; reflexivity|].
  split.
  - eexists. split; [reflexivity|]. repeat split; vm_compute; reflexivity.
  - rewrite statistics_table. vm_compute. reflexivity.
Qed.

(** C8: the generated table refers only to diseases of the dataset, holds
    only non-negative counts, and has no two rows with the same disease id,
    year and season. *)
Theorem statistics_table_invariant :
  Forall (fun s => exists d, In d DISEASES_DB
                             /\ Disease.id d = StatisticItem.disease_id s)
         STATISTICS_DB
  /\ Forall (fun s => 0 <= StatisticItem.cases s) STATISTICS_DB
  /\ NoDup (map key STATISTICS_DB).
Proof.
  pose proof (generate_statistics_ok _ _ statistics_loaded) as Hok.
  rewrite Forall_forall in Hok.
  split; [|split].
  - apply Forall_forall. intros s Hs.
    destruct (Hok s Hs) as [Hid _].
    apply in_map_iff in Hid. destruct Hid as [d [Hd Hin]].
    exists d. split; assumption.
  - apply Forall_forall. intros s Hs.
    destruct (Hok s Hs) as [_ [_ Hc]]. exact Hc.
  - apply (distinctb_NoDup key_eqb); [exact key_eqb_refl|].
    rewrite statistics_table. vm_compute. reflexivity.
Qed.

(* ===================================================================== *)
(** * Lookup of one disease *)
(* ===================================================================== *)

Lemma get_disease_or_404_found (d : Disease.t) :
  In d DISEASES_DB -> get_disease_or_404 (Disease.id d) = inr d.
Proof.
  intros Hd. unfold get_disease_or_404.
  destruct (find _ DISEASES_DB) as [d'|] eqn:E.
  - apply find_some in E. destruct E as [Hd' Hid].
    apply Z.eqb_eq in Hid.
    rewrite (NoDup_map_inj Disease.id DISEASES_DB d' d
               disease_ids_distinct Hd' Hd Hid).
    reflexivity.
  - pose proof (find_none _ _ E d Hd) as H. cbv beta in H.
    rewrite Z.eqb_refl in H. discriminate H.
Qed.

Lemma get_disease_or_404_absent (disease_id : Z) :
  ~ In disease_id (map Disease.id DISEASES_DB) ->
  get_disease_or_404 disease_id
  = inl (HTTPException 404 (u "Заболевание не найдено")).
Proof.
  intros Habs. unfold get_disease_or_404.
  destruct (find _ DISEASES_DB) as [d|] eqn:E; [|reflexivity].
  apply find_some in E. destruct E as [Hd Hid].
  apply Z.eqb_eq in Hid. exfalso. apply Habs.
  rewrite <- Hid. apply in_map. exact Hd.
Qed.

Lemma record_of_attach_stats (d : Disease.t) : record_of (attach_stats d) = d.
Proof. destruct d; reflexivity. Qed.

Lemma rows_years (d : Disease.t) :
  Forall (fun s => 2021 <= StatisticItem.year s <= 2023) (Spec.rows d).
Proof. unfold Spec.rows. simpl. repeat constructor; simpl; lia. Qed.

(** C2: a disease id that is not in the dataset is answered with the 404
    error; an id of the dataset is answered with the record of that disease
    together with the rows of the statistics table that carry the id. *)
Theorem get_disease_found_or_404 (disease_id : Z) :
  (~ In disease_id (map Disease.id DISEASES_DB) ->
   get_disease disease_id
   = inl (HTTPException 404 (u "Заболевание не найдено")))
  /\ (In disease_id (map Disease.id DISEASES_DB) ->
      exists d r,
        In d DISEASES_DB /\ Disease.id d = disease_id
        /\ get_disease disease_id = inr r
        /\ record_of r = d
        /\ DiseaseWithStats.statistics r
           = filter (fun s => StatisticItem.disease_id s =? disease_id)
                    STATISTICS_DB).
Proof.
  split.
  - intros Habs. unfold get_disease.
    rewrite (get_disease_or_404_absent _ Habs). reflexivity.
  - intros Hin. apply in_map_iff in Hin. destruct Hin as [d [Hid Hd]].
    exists d, (attach_stats d). subst disease_id.
    split; [exact Hd|]. split; [reflexivity|].
    unfold get_disease. rewrite (get_disease_or_404_found _ Hd).
    split; [reflexivity|]. split; [apply record_of_attach_stats|].
    reflexivity.
Qed.

(** The two cases at the ids 46 (absent) and 7 (present). *)
Lemma get_disease_found_or_404_witness :
  (~ In 46 (map Disease.id DISEASES_DB)
   /\ get_disease 46 = inl (HTTPException 404 (u "Заболевание не найдено")))
  /\ (In 7 (map Disease.id DISEASES_DB)
      /\ exists d r,
           In d DISEASES_DB /\ Disease.id d = 7
           /\ get_disease 7 = inr r
           /\ record_of r = d
           /\ DiseaseWithStats.statistics r
              = filter (fun s => StatisticItem.disease_id s =? 7)
                       STATISTICS_DB).
Proof.
  assert (H46 : ~ In 46 (map Disease.id DISEASES_DB)).
  { rewrite disease_ids. intros H. simpl in H.
    repeat (destruct H as [H|H]; [discriminate H|]). exact H. }
  assert (H7 : In 7 (map Disease.id DISEASES_DB)).
  { rewrite disease_ids. simpl. do 6 right. left. reflexivity. }
  split.
  - split; [exact H46 | exact (proj1 (get_disease_found_or_404 46) H46)].
  - split; [exact H7 | exact (proj2 (get_disease_found_or_404 7) H7)].
Defined.

(** C4: for an id of the dataset, the statistics attached to the answer all
    carry that id, all lie in the years 2021..2023, and come in generation
    order: by year ascending and, within a year, winter, spring, summer,
    autumn. *)
Theorem attached_statistics_shape (disease_id : Z) :
  In disease_id (map Disease.id DISEASES_DB) ->
  exists r,
    get_disease disease_id = inr r
    /\ Forall (fun s => StatisticItem.disease_id s = disease_id)
              (DiseaseWithStats.statistics r)
    /\ Forall (fun s => 2021 <= StatisticItem.year s <= 2023)
              (DiseaseWithStats.statistics r)
    /\ map (fun s => (StatisticItem.year s, StatisticItem.season s))
           (DiseaseWithStats.statistics r)
       = generation_order.
Proof.
  intros Hin. apply in_map_iff in Hin. destruct Hin as [d [Hid Hd]].
  subst disease_id. exists (attach_stats d).
  unfold get_disease. rewrite (get_disease_or_404_found _ Hd).
  split; [reflexivity|].
  rewrite (attached_rows _ Hd).
  split; [apply rows_disease_id|].
  split; [apply rows_years | apply rows_order].
Qed.

(** The shape of the answer for the id 7. *)
Lemma attached_statistics_shape_witness :
  In 7 (map Disease.id DISEASES_DB)
  /\ exists r,
       get_disease 7 = inr r
       /\ Forall (fun s => StatisticItem.disease_id s = 7)
                 (DiseaseWithStats.statistics r)
       /\ Forall (fun s => 2021 <= StatisticItem.year s <= 2023)
                 (DiseaseWithStats.statistics r)
       /\ map (fun s => (StatisticItem.year s, StatisticItem.season s))
              (DiseaseWithStats.statistics r)
          = generation_order.
Proof.
  assert (H7 : In 7 (map Disease.id DISEASES_DB)).
  { rewrite disease_ids. simpl. do 6 right. left. reflexivity. }
  split; [exact H7 | exact (attached_statistics_shape 7 H7)].
Defined.

(* ===================================================================== *)
(** * Search by symptom *)
(* ===================================================================== *)

Lemma has_symptom_iff (symptom_id : Z) (d : Disease.t) :
  has_symptom symptom_id d = true <-> lists_symptom symptom_id d.
Proof.
  unfold has_symptom, lists_symptom. rewrite existsb_exists.
  split; intros [s [Hs Hid]]; exists s; (split; [exact Hs|]).
  - apply Z.eqb_eq; exact Hid.
  - apply Z.eqb_eq; exact Hid.
Qed.

Lemma summarises_to_short (d : Disease.t) : summarises (to_short d) d.
Proof. unfold summarises. repeat split. Qed.

Lemma summaries_of (l : list Disease.t) :
  Forall2 summarises (map to_short l) l.
Proof.
  induction l as [|d l IH]; cbn [map]; constructor;
    [apply summarises_to_short | exact IH].
Qed.

Lemma has_symptom_unfold (symptom_id : Z) :
  has_symptom symptom_id
  = fun d => existsb (fun s => Symptom.id s =? symptom_id)
                     (Disease.symptoms d).
Proof. reflexivity. Qed.

(** What a successful search returns on a table [db]: the summaries, in
    table order, of exactly the diseases that list the symptom. *)
Lemma search_answer (db : list Disease.t) (symptom_id : Z) :
  let matching :=
    filter (fun d => existsb (fun s => Symptom.id s =? symptom_id)
                             (Disease.symptoms d)) db in
  map to_short (filter (has_symptom symptom_id) db) = map to_short matching
  /\ (forall d, In d matching <-> In d db /\ lists_symptom symptom_id d)
  /\ Forall2 summarises (map to_short matching) matching
  /\ Forall (fun short =>
               exists d, In d db /\ summarises short d
                         /\ lists_symptom symptom_id d)
            (map to_short matching)
  /\ (forall d, In d db -> lists_symptom symptom_id d ->
                exists short, In short (map to_short matching)
                              /\ summarises short d).
Proof.
  intros matching. unfold matching. rewrite <- has_symptom_unfold.
  assert (Hin : forall d, In d (filter (has_symptom symptom_id) db)
                          <-> In d db /\ lists_symptom symptom_id d).
  { intros d. rewrite filter_In, has_symptom_iff. reflexivity. }
  split; [reflexivity|]. split; [exact Hin|].
  split; [apply summaries_of|]. split.
  - apply Forall_forall. intros short Hs.
    apply in_map_iff in Hs. destruct Hs as [d [Hshort Hf]].
    apply Hin in Hf. destruct Hf as [Hd Hl].
    exists d. split; [exact Hd|]. split; [|exact Hl].
    rewrite <- Hshort. apply summarises_to_short.
  - intros d Hd Hl. exists (to_short d).
    split; [|apply summarises_to_short].
    apply in_map. apply Hin. split; assumption.
Qed.

(** C3: the search raises the 404 error exactly when no disease of the
    dataset lists a symptom with the given id.  Otherwise it returns a
    list that is not empty and holds, in dataset order, one summary for
    each disease that lists the symptom and no other: each summary carries
    the id, the name, the age group and the pathogen type of its disease,
    whose symptom list holds a symptom with that id. *)
Theorem search_by_symptom_found_or_404 (symptom_id : Z) :
  (search_by_symptom symptom_id
   = inl (HTTPException 404 (u "Нет заболеваний с данным симптомом"))
   <-> forall d, In d DISEASES_DB -> ~ lists_symptom symptom_id d)
  /\ ((exists d, In d DISEASES_DB /\ lists_symptom symptom_id d) ->
      exists r matching,
        search_by_symptom symptom_id = inr r
        /\ r <> []
        /\ matching
           = filter (fun d => existsb (fun s => Symptom.id s =? symptom_id)
                                      (Disease.symptoms d))
                    DISEASES_DB
        /\ (forall d, In d matching
                      <-> In d DISEASES_DB /\ lists_symptom symptom_id d)
        /\ Forall2 summarises r matching
        /\ Forall (fun short =>
                     exists d, In d DISEASES_DB /\ summarises short d
                               /\ lists_symptom symptom_id d) r
        /\ (forall d, In d DISEASES_DB -> lists_symptom symptom_id d ->
                      exists short, In short r /\ summarises short d)).
Proof.
  pose proof (search_answer DISEASES_DB symptom_id) as Hanswer.
  cbv zeta in Hanswer. destruct Hanswer as [Hsame [Hin [Hall2 [Hall Hcov]]]].
  unfold search_by_symptom.
  revert Hsame Hin Hall2 Hall Hcov. generalize DISEASES_DB. intros db.
  rewrite has_symptom_unfold.
  set (matching := filter _ db). intros _ Hin Hall2 Hall Hcov.
  destruct matching as [|x l] eqn:E.
  - assert (Hnone : forall d, In d db -> ~ lists_symptom symptom_id d).
    { intros d Hd Hl. exact (proj2 (Hin d) (conj Hd Hl)). }
    split; [split; [intros _; exact Hnone | reflexivity]|].
    intros [d [Hd Hl]]. exfalso. exact (Hnone d Hd Hl).
  - assert (Hx : In x db /\ lists_symptom symptom_id x)
      by (apply Hin; left; reflexivity).
    split.
    + split; [discriminate|].
      intros Hnone. exfalso. exact (Hnone x (proj1 Hx) (proj2 Hx)).
    + intros _. exists (map to_short (x :: l)), (x :: l).
      split; [reflexivity|]. split; [discriminate|].
      split; [reflexivity|]. split; [exact Hin|].
      split; [exact Hall2|]. split; [exact Hall | exact Hcov].
Qed.

(** No disease lists a symptom 11; rubella lists the symptom 9. *)
Lemma search_by_symptom_found_or_404_witness :
  ((forall d, In d DISEASES_DB -> ~ lists_symptom 11 d)
   /\ search_by_symptom 11
      = inl (HTTPException 404 (u "Нет заболеваний с данным симптомом")))
  /\ ((exists d, In d DISEASES_DB /\ lists_symptom 9 d)
      /\ exists r matching,
           search_by_symptom 9 = inr r
           /\ r <> []
           /\ matching
              = filter (fun d => existsb (fun s => Symptom.id s =? 9)
                                         (Disease.symptoms d))
                       DISEASES_DB
           /\ (forall d, In d matching
                         <-> In d DISEASES_DB /\ lists_symptom 9 d)
           /\ Forall2 summarises r matching
           /\ Forall (fun short =>
                        exists d, In d DISEASES_DB /\ summarises short d
                                  /\ lists_symptom 9 d) r
           /\ (forall d, In d DISEASES_DB -> lists_symptom 9 d ->
                         exists short, In short r /\ summarises short d)).
Proof.
  assert (H11 : forall d, In d DISEASES_DB -> ~ lists_symptom 11 d).
  { assert (Hb : forallb (fun d => negb (has_symptom 11 d)) DISEASES_DB = true)
      by (vm_compute; reflexivity).
    intros d Hd Hl. apply has_symptom_iff in Hl.
    rewrite forallb_forall in Hb. specialize (Hb d Hd).
    rewrite Hl in Hb. discriminate Hb. }
  assert (H9 : exists d, In d DISEASES_DB /\ lists_symptom 9 d).
  { destruct (nth_error DISEASES_DB 3) as [d|] eqn:E; [|discriminate E].
    exists d. split; [eapply nth_error_In; exact E|].
    apply has_symptom_iff. vm_compute in E.
    injection E as <-. vm_compute. reflexivity. }
  split.
  - split; [exact H11|].
    exact (proj2 (proj1 (search_by_symptom_found_or_404 11)) H11).
  - split; [exact H9|].
    exact (proj2 (search_by_symptom_found_or_404 9) H9).
Defined.

(* ===================================================================== *)
(** * Listing diseases *)
(* ===================================================================== *)

Lemma AgeGroup_truthy (a : AgeGroup) : Str.truthy (AgeGroup_value a) = true.
Proof. destruct a; reflexivity. Qed.

Lemma AgeGroup_eqb_eq (a b : AgeGroup) : AgeGroup_eqb a b = true <-> a = b.
Proof. destruct a, b; simpl; split; congruence. Qed.

Lemma filter_filter {A : Type} (f g : A -> bool) (l : list A) :
  filter g (filter f l) = filter (fun x => f x && g x) l.
Proof.
  induction l as [|x l IH]; simpl; [reflexivity|].
  destruct (f x); simpl; [destruct (g x)|]; rewrite IH; reflexivity.
Qed.

Lemma filter_true {A : Type} (l : list A) : filter (fun _ => true) l = l.
Proof. induction l as [|x l IH]; simpl; [|rewrite IH]; reflexivity. Qed.

(** One step of [list_diseases]: a text argument either filters the
    running result or leaves it as it is. *)
Lemma text_step (arg : option str) (test : str -> Disease.t -> bool)
    (result : list Disease.t) :
  match arg with
  | Some v => if Str.truthy v then filter (test v) result else result
  | None => result
  end
  = filter (fun d => text_filter arg (fun v => test v d)) result.
Proof.
  destruct arg as [v|]; simpl; [destruct (Str.truthy v)|];
    try reflexivity; symmetry; apply filter_true.
Qed.

(** [list_diseases] is one pass with the conjunction [selects]. *)
Lemma list_diseases_selects (transmission : option str)
    (age_group : option AgeGroup) (pathogen_type q : option str) :
  list_diseases transmission age_group pathogen_type q
  = inr (map to_short
           (filter (selects transmission age_group pathogen_type q)
                   DISEASES_DB)).
Proof.
  unfold list_diseases, ret. do 2 f_equal.
  rewrite (text_step transmission
             (fun v d => Str.eqb (Str.lower (Disease.transmission d))
                                 (Str.strip (Str.lower v)))).
  rewrite (text_step q
             (fun v d => Str.contains (Str.strip (Str.lower v))
                                      (Str.lower (Disease.name d)))).
  rewrite (text_step pathogen_type
             (fun v d => Str.eqb (Str.lower (Disease.pathogen_type d))
                                 (Str.strip (Str.lower v)))).
  assert (Hage : forall l : list Disease.t,
             match age_group with
             | Some a =>
                 if Str.truthy (AgeGroup_value a)
                 then filter (fun d => AgeGroup_eqb (Disease.age_group d) a) l
                 else l
             | None => l
             end
             = filter (fun d => match age_group with
                                | Some a => AgeGroup_eqb (Disease.age_group d) a
                                | None => true
                                end) l).
  { intros l. destruct age_group as [a|].
    - rewrite AgeGroup_truthy. reflexivity.
    - symmetry. apply filter_true. }
  rewrite Hage, !filter_filter.
  apply filter_ext. intros d. unfold selects.
  assert (Heq : forall a b, Str.eqb a b = Str.eqb b a).
  { intros a b. destruct (Str.eqb b a) eqn:E.
    - apply Str_eqb_eq in E. subst. apply Str_eqb_refl.
    - apply Str_eqb_neq. apply Str_eqb_neq in E. congruence. }
  assert (Htext : forall (arg : option str) (f g : str -> bool),
             (forall v, f v = g v) -> text_filter arg f = text_filter arg g).
  { intros arg f g Hfg. destruct arg as [v|]; simpl; [|reflexivity].
    rewrite Hfg. reflexivity. }
  rewrite (Htext transmission _
             (fun v => Str.eqb (Str.lower (Str.strip v))
                               (Str.lower (Disease.transmission d))))
    by (intros v; rewrite strip_lower; apply Heq).
  rewrite (Htext pathogen_type _
             (fun v => Str.eqb (Str.lower (Str.strip v))
                               (Str.lower (Disease.pathogen_type d))))
    by (intros v; rewrite strip_lower; apply Heq).
  rewrite (Htext q _
             (fun v => Str.contains (Str.lower (Str.strip v))
                                    (Str.lower (Disease.name d))))
    by (intros v; rewrite strip_lower; reflexivity).
  rewrite !andb_assoc. reflexivity.
Qed.

(** C5: without any filter argument the listing returns one summary for
    every disease of the dataset, in the order of the dataset, and each
    summary carries the id, the name, the age group and the pathogen type
    of its disease: 45 entries with the ids 1 to 45, from measles to the
    parvovirus infection.  The handler reads only the tables fixed at load
    time, which no handler writes, so each call returns this list. *)
Theorem list_diseases_unfiltered :
  exists r,
    list_diseases None None None None = inr r
    /\ Forall2 summarises r DISEASES_DB
    /\ List.length r = 45%nat
    /\ map DiseaseShort.id r = map Z.of_nat (seq 1 45)
    /\ nth_error r 0
       = Some (DiseaseShort.mk 1 (u "Корь") preschool (u "Вирус"))
    /\ nth_error r 44
       = Some (DiseaseShort.mk
                 45 (u "Парвовирусная инфекция (инфекционная эритема)")
                 children (u "Вирус")).
Proof.
  assert (H : list_diseases None None None None = inr (map to_short DISEASES_DB))
    by reflexivity.
  exists (map to_short DISEASES_DB).
  split; [exact H|].
  split; [apply summaries_of|].
  split; [rewrite length_map; reflexivity|].
  assert (Hid : map DiseaseShort.id (map to_short DISEASES_DB)
                = map Disease.id DISEASES_DB).
  { rewrite map_map. apply map_ext. intros d. reflexivity. }
  split; [rewrite Hid; exact disease_ids|].
  split; vm_compute; reflexivity.
Qed.

(** C10: an empty string given for [transmission], [pathogen_type] or [q]
    constrains nothing: the answer is that of the call without the
    argument. *)
Theorem empty_text_argument_is_ignored (transmission pathogen_type q : option str)
    (age_group : option AgeGroup) :
  list_diseases (Some (u "")) age_group pathogen_type q
  = list_diseases None age_group pathogen_type q
  /\ list_diseases transmission age_group (Some (u "")) q
     = list_diseases transmission age_group None q
  /\ list_diseases transmission age_group pathogen_type (Some (u ""))
     = list_diseases transmission age_group pathogen_type None.
Proof.
  rewrite !list_diseases_selects.
  repeat split; do 2 f_equal; apply filter_ext; intros d; reflexivity.
Qed.

(** C6, as the code has it: the listing never raises and returns, in
    dataset order, the diseases that pass the conjunction of the
    constraints of its arguments.  A text argument that is absent or empty
    constrains nothing; otherwise [transmission] and [pathogen_type] pass
    when the value, trimmed and lower-cased, equals the lower-cased field,
    and [q] passes when the value, trimmed and lower-cased, occurs in the
    lower-cased name.  When no disease passes, the answer is the empty
    list. *)
Theorem list_diseases_conjunction (transmission : option str)
    (age_group : option AgeGroup) (pathogen_type q : option str) :
  list_diseases transmission age_group pathogen_type q
  = inr (map to_short
           (filter (selects transmission age_group pathogen_type q)
                   DISEASES_DB))
  /\ ((forall d, In d DISEASES_DB ->
                 selects transmission age_group pathogen_type q d = false) ->
      list_diseases transmission age_group pathogen_type q = inr []).
Proof.
  split; [apply list_diseases_selects|].
  intros Hnone. rewrite list_diseases_selects. do 2 f_equal.
  induction DISEASES_DB as [|d db IH]; simpl; [reflexivity|].
  rewrite (Hnone d (or_introl eq_refl)).
  apply IH. intros d' Hd'. apply Hnone. right. exact Hd'.
Qed.

(** No airborne virus disease of the dataset is in the group [under7]. *)
Lemma list_diseases_conjunction_witness :
  (forall d, In d DISEASES_DB ->
             selects (Some (u "Воздушно-капельный")) (Some under7)
                     (Some (u "Вирус")) None d = false)
  /\ list_diseases (Some (u "Воздушно-капельный")) (Some under7)
                   (Some (u "Вирус")) None = inr [].
Proof.
  assert (H : forall d, In d DISEASES_DB ->
                selects (Some (u "Воздушно-капельный")) (Some under7)
                        (Some (u "Вирус")) None d = false).
  { assert (Hb : forallb
                   (fun d => negb (selects (Some (u "Воздушно-капельный"))
                                           (Some under7) (Some (u "Вирус"))
                                           None d))
                   DISEASES_DB = true) by (vm_compute; reflexivity).
    intros d Hd. rewrite forallb_forall in Hb.
    apply negb_true_iff. exact (Hb d Hd). }
  split; [exact H|].
  exact (proj2 (list_diseases_conjunction (Some (u "Воздушно-капельный"))
                  (Some under7) (Some (u "Вирус")) None) H).
Defined.

(** C6, as the claim words it, fails on the code.  The query "корь "
    with a trailing blank does not occur in the name "Корь", so the claim
    has no match, while the handler trims the query and returns measles.
    An empty [transmission] is a supplied value that equals no field, so
    the claim has no match, while the handler ignores it and returns the
    whole dataset. *)
Lemma list_diseases_claimed_counterexample :
  Str.contains (Str.lower (u "корь ")) (Str.lower (u "Корь")) = false
  /\ Claimed.list_diseases None None None (Some (u "корь ")) = inr []
  /\ list_diseases None None None (Some (u "корь "))
     = inr [DiseaseShort.mk 1 (u "Корь") preschool (u "Вирус")]
  /\ Claimed.list_diseases (Some (u "")) None None None = inr []
  /\ list_diseases (Some (u "")) None None None
     = inr (map to_short DISEASES_DB).
Proof.
  split; [vm_compute; reflexivity|].
  split; [vm_compute; reflexivity|].
  split; [vm_compute; reflexivity|].
  split; [vm_compute; reflexivity | reflexivity].
Qed.

(* ===================================================================== *)
(** * Filtering by age group *)
(* ===================================================================== *)

Lemma list_diseases_by_age_group (a : AgeGroup) :
  list_diseases None (Some a) None None
  = inr (map to_short
           (filter (fun d => AgeGroup_eqb (Disease.age_group d) a)
                   DISEASES_DB)).
Proof.
  rewrite list_diseases_selects. do 2 f_equal.
  apply filter_ext. intros d. unfold selects. simpl.
  rewrite !andb_true_r. reflexivity.
Qed.



Lemma by_age_group_In (db : list Disease.t) (a : AgeGroup) (d : Disease.t) :
  In d db ->
  (In (to_short d) (by_age_group db a) <-> a = Disease.age_group d).
Proof.
  intros Hd. unfold by_age_group. split.
  - intros Hin. apply in_map_iff in Hin. destruct Hin as [d' [Hshort Hf]].
    apply filter_In in Hf. destruct Hf as [_ Ha].
    apply AgeGroup_eqb_eq in Ha.
    apply (f_equal DiseaseShort.age_group) in Hshort.
    cbn [to_short DiseaseShort.age_group] in Hshort. congruence.
  - intros ->. apply in_map. apply filter_In. split; [exact Hd|].
    apply AgeGroup_eqb_eq. reflexivity.
Qed.




(* ===================================================================== *)
(** * Filter metadata *)
(* ===================================================================== *)

(** C9: the answer holds three lists, under the keys [age_groups],
    [transmissions] and [pathogen_types]; each list holds exactly the
    labels that occur in the dataset, in strictly ascending string order,
    hence without a repeated label. *)
Theorem filter_meta_sorted_distinct :
  exists age_groups transmissions pathogen_types,
    filter_meta = [ (u "age_groups", age_groups);
                    (u "transmissions", transmissions);
                    (u "pathogen_types", pathogen_types) ]
    /\ (StronglySorted str_lt age_groups /\ NoDup age_groups
        /\ forall x, In x age_groups
                     <-> exists d, In d DISEASES_DB
                                   /\ AgeGroup_value (Disease.age_group d) = x)
    /\ (StronglySorted str_lt transmissions /\ NoDup transmissions
        /\ forall x, In x transmissions
                     <-> exists d, In d DISEASES_DB
                                   /\ Disease.transmission d = x)
    /\ (StronglySorted str_lt pathogen_types /\ NoDup pathogen_types
        /\ forall x, In x pathogen_types
                     <-> exists d, In d DISEASES_DB
                                   /\ Disease.pathogen_type d = x)
    /\ age_groups = [ u "Дети до 7 лет"; u "Детский возраст";
                      u "Дошкольный возраст" ]
    /\ transmissions = [ u "Воздушно-капельный";
                         u "Восходящий путь из носоглотки";
                         u "Контактно-бытовой"; u "Контактный";
                         u "Трансмиссивный"; u "Фекально-оральный" ]
    /\ pathogen_types = [ u "Бактерии"; u "Бактерия"; u "Вирус";
                          u "Грибок"; u "Паразит" ].
Proof.
  assert (Hlist : forall (f : Disease.t -> str),
             let l := sorted (set_of (map f DISEASES_DB)) in
             StronglySorted str_lt l /\ NoDup l
             /\ forall x, In x l <-> exists d, In d DISEASES_DB /\ f d = x).
  { intros f l.
    destruct (sorted_set_of_spec (map f DISEASES_DB)) as [Hs [Hnd Hin]].
    split; [exact Hs|]. split; [exact Hnd|].
    intros x. unfold l. rewrite Hin, in_map_iff.
    split; intros [d [H1 H2]]; exists d; split; assumption. }
  do 3 eexists. split; [reflexivity|].
  split; [exact (Hlist (fun d => AgeGroup_value (Disease.age_group d)))|].
  split; [exact (Hlist Disease.transmission)|].
  split; [exact (Hlist Disease.pathogen_type)|].
  split; [vm_compute; reflexivity|].
  split; vm_compute; reflexivity.
Qed.

(* ===================================================================== *)
(** * Listing statistics *)
(* ===================================================================== *)

Lemma Season_eqb_eq (a b : Season) : Season_eqb a b = true <-> a = b.
Proof. destruct a, b; simpl; split; congruence. Qed.

Lemma filter_nothing {A : Type} (f : A -> bool) (l : list A) :
  (forall x, In x l -> f x = false) -> filter f l = [].
Proof.
  induction l as [|x l IH]; simpl; intros H; [reflexivity|].
  rewrite (H x (or_introl eq_refl)). apply IH.
  intros y Hy. apply H. right. exact Hy.
Qed.

(** [get_statistics] is one pass over the table with [stat_selects]. *)
Lemma get_statistics_selects (year : option Z) (season : option Season)
    (disease_id : option Z) :
  get_statistics year season disease_id
  = inr (filter (stat_selects year season disease_id) STATISTICS_DB).
Proof.
  unfold get_statistics, ret. apply f_equal.
  generalize STATISTICS_DB. intros table.
  assert (Hy : match year with
               | Some y => filter (fun s => StatisticItem.year s =? y) table
               | None => table
               end
               = filter (fun s => match year with
                                  | Some y => StatisticItem.year s =? y
                                  | None => true
                                  end) table)
    by (destruct year; [reflexivity | symmetry; apply filter_true]).
  rewrite Hy. clear Hy.
  set (t1 := filter _ table).
  assert (Hs : match season with
               | Some x =>
                   filter (fun s => Season_eqb (StatisticItem.season s) x) t1
               | None => t1
               end
               = filter (fun s => match season with
                                  | Some x =>
                                      Season_eqb (StatisticItem.season s) x
                                  | None => true
                                  end) t1)
    by (destruct season; [reflexivity | symmetry; apply filter_true]).
  rewrite Hs. clear Hs.
  set (t2 := filter _ t1).
  assert (Hi : match disease_id with
               | Some i =>
                   filter (fun s => StatisticItem.disease_id s =? i) t2
               | None => t2
               end
               = filter (fun s => match disease_id with
                                  | Some i => StatisticItem.disease_id s =? i
                                  | None => true
                                  end) t2)
    by (destruct disease_id; [reflexivity | symmetry; apply filter_true]).
  rewrite Hi. clear Hi.
  unfold t2, t1. rewrite !filter_filter.
  apply filter_ext. intros s. unfold stat_selects.
  rewrite !andb_assoc. reflexivity.
Qed.

Lemma stat_selects_iff (year : option Z) (season : option Season)
    (disease_id : option Z) (s : StatisticItem.t) :
  stat_selects year season disease_id s = true
  <-> (forall y, year = Some y -> StatisticItem.year s = y)
      /\ (forall x, season = Some x -> StatisticItem.season s = x)
      /\ (forall i, disease_id = Some i -> StatisticItem.disease_id s = i).
Proof.
  unfold stat_selects. rewrite !andb_true_iff. split.
  - intros [[Hy Hs] Hi]. split; [|split].
    + intros y ->. apply Z.eqb_eq. exact Hy.
    + intros x ->. apply Season_eqb_eq. exact Hs.
    + intros i ->. apply Z.eqb_eq. exact Hi.
  - intros [Hy [Hs Hi]]. split; [split|].
    + destruct year as [y|]; [|reflexivity].
      apply Z.eqb_eq. apply Hy. reflexivity.
    + destruct season as [x|]; [|reflexivity].
      apply Season_eqb_eq. apply Hs. reflexivity.
    + destruct disease_id as [i|]; [|reflexivity].
      apply Z.eqb_eq. apply Hi. reflexivity.
Qed.

Lemma statistics_rows_ok : Forall (row_ok DISEASES_DB) STATISTICS_DB.
Proof. exact (generate_statistics_ok _ _ statistics_loaded). Qed.

Lemma statistics_keys_distinct : NoDup (map key STATISTICS_DB).
Proof.
  apply (distinctb_NoDup key_eqb); [exact key_eqb_refl|].
  rewrite statistics_table. vm_compute. reflexivity.
Qed.

Lemma zero_is_no_disease_id : ~ In 0 (map Disease.id DISEASES_DB).
Proof.
  rewrite disease_ids. intros H. apply in_map_iff in H.
  destruct H as [n [Hn Hin]]. apply in_seq in Hin. lia.
Qed.

(** X1: the statistics listing never raises; it returns, in table order,
    the rows that pass every supplied constraint.  A constraint is applied
    whenever the argument is present, so the year 0 and the disease id 0
    are constraints like any other and select nothing. *)
Theorem get_statistics_conjunction (year : option Z) (season : option Season)
    (disease_id : option Z) :
  exists rows,
    get_statistics year season disease_id = inr rows
    /\ rows = filter (stat_selects year season disease_id) STATISTICS_DB
    /\ (forall s, In s rows <->
          In s STATISTICS_DB
          /\ (forall y, year = Some y -> StatisticItem.year s = y)
          /\ (forall x, season = Some x -> StatisticItem.season s = x)
          /\ (forall i, disease_id = Some i -> StatisticItem.disease_id s = i))
    /\ get_statistics (Some 0) season disease_id = inr []
    /\ get_statistics year season (Some 0) = inr [].
Proof.
  exists (filter (stat_selects year season disease_id) STATISTICS_DB).
  split; [apply get_statistics_selects|]. split; [reflexivity|].
  rewrite !get_statistics_selects.
  pose proof statistics_rows_ok as Hok. rewrite Forall_forall in Hok.
  pose proof zero_is_no_disease_id as Hzero.
  revert Hok. generalize STATISTICS_DB. intros table Hok.
  split; [|split].
  - intros s. rewrite filter_In.
    split; (intros [Hin Hsel]; split; [exact Hin|]);
      apply stat_selects_iff; exact Hsel.
  - apply f_equal. apply filter_nothing.
    intros s Hs. destruct (Hok s Hs) as [_ [Hy _]].
    unfold stat_selects.
    assert (E : (StatisticItem.year s =? 0) = false).
    { apply Z.eqb_neq. intros H0. rewrite H0 in Hy.
      destruct Hy as [Hy|[Hy|[Hy|[]]]]; discriminate Hy. }
    rewrite E. reflexivity.
  - apply f_equal. apply filter_nothing.
    intros s Hs. destruct (Hok s Hs) as [Hid _].
    unfold stat_selects.
    assert (E : (StatisticItem.disease_id s =? 0) = false).
    { apply Z.eqb_neq. intros H0. rewrite H0 in Hid. exact (Hzero Hid). }
    rewrite E. apply andb_false_r.
Qed.

Lemma get_disease_inv (disease_id : Z) (r : DiseaseWithStats.t) :
  get_disease disease_id = inr r ->
  exists d, In d DISEASES_DB /\ Disease.id d = disease_id
            /\ r = attach_stats d.
Proof.
  unfold get_disease, get_disease_or_404, bind, ret.
  destruct (find _ DISEASES_DB) as [d|] eqn:E; [|discriminate].
  apply find_some in E. destruct E as [Hd Hid]. apply Z.eqb_eq in Hid.
  intros H. exists d. split; [exact Hd|]. split; [exact Hid|].
  apply (f_equal (fun c => match c with inr x => x | inl _ => r end)) in H.
  symmetry. exact H.
Qed.

Lemma get_disease_found (d : Disease.t) :
  In d DISEASES_DB -> get_disease (Disease.id d) = inr (attach_stats d).
Proof.
  intros Hd. unfold get_disease.
  rewrite (get_disease_or_404_found _ Hd). reflexivity.
Qed.

Lemma seventh_disease : exists d, In d DISEASES_DB /\ Disease.id d = 7.
Proof.
  assert (H : In 7 (map Disease.id DISEASES_DB)).
  { rewrite disease_ids. apply in_map_iff. exists 7%nat.
    split; [reflexivity | apply in_seq; lia]. }
  apply in_map_iff in H. destruct H as [d [Hid Hd]].
  exists d. split; assumption.
Qed.

(** X2: the statistics listing restricted to a disease id returns the very
    rows that the disease lookup attaches for that id. *)
Theorem get_statistics_agrees_with_get_disease (disease_id : Z)
    (r : DiseaseWithStats.t) :
  get_disease disease_id = inr r ->
  get_statistics None None (Some disease_id)
  = inr (DiseaseWithStats.statistics r).
Proof.
  intros Hr. destruct (get_disease_inv _ _ Hr) as [d [_ [Hid ->]]].
  rewrite get_statistics_selects. apply f_equal.
  unfold attach_stats. cbn [DiseaseWithStats.statistics].
  rewrite Hid. apply filter_ext. intros s. reflexivity.
Qed.

(** The listing by the id 7 and the lookup of the disease 7. *)
Lemma get_statistics_agrees_with_get_disease_witness :
  exists r,
    get_disease 7 = inr r
    /\ get_statistics None None (Some 7)
       = inr (DiseaseWithStats.statistics r).
Proof.
  destruct seventh_disease as [d [Hd Hid]].
  assert (E : get_disease 7 = inr (attach_stats d))
    by (rewrite <- Hid; apply get_disease_found; exact Hd).
  exists (attach_stats d). split; [exact E|].
  exact (get_statistics_agrees_with_get_disease 7 (attach_stats d) E).
Defined.

(** X3: a disease id outside the dataset, or a year outside [YEARS], makes
    the statistics listing return the empty list, whatever the other
    arguments; the lookup of such a disease id raises the 404 error
    instead. *)
Theorem get_statistics_unknown_is_empty (year : option Z)
    (season : option Season) (disease_id : option Z) (unknown : Z) :
  (~ In unknown (map Disease.id DISEASES_DB) ->
   get_statistics year season (Some unknown) = inr []
   /\ get_disease unknown
      = inl (HTTPException 404 (u "Заболевание не найдено")))
  /\ (~ In unknown YEARS ->
      get_statistics (Some unknown) season disease_id = inr []).
Proof.
  pose proof statistics_rows_ok as Hok. rewrite Forall_forall in Hok.
  split.
  - intros Habs. split.
    + rewrite get_statistics_selects. apply f_equal.
      revert Hok. generalize STATISTICS_DB. intros table Hok.
      apply filter_nothing. intros s Hs. destruct (Hok s Hs) as [Hid _].
      unfold stat_selects.
      assert (E : (StatisticItem.disease_id s =? unknown) = false).
      { apply Z.eqb_neq. intros H0. rewrite H0 in Hid. exact (Habs Hid). }
      rewrite E. apply andb_false_r.
    + unfold get_disease. rewrite (get_disease_or_404_absent _ Habs).
      reflexivity.
  - intros Habs. rewrite get_statistics_selects. apply f_equal.
    revert Hok. generalize STATISTICS_DB. intros table Hok.
    apply filter_nothing. intros s Hs. destruct (Hok s Hs) as [_ [Hy _]].
    unfold stat_selects.
    assert (E : (StatisticItem.year s =? unknown) = false).
    { apply Z.eqb_neq. intros H0. rewrite H0 in Hy. exact (Habs Hy). }
    rewrite E. reflexivity.
Qed.

(** The disease id 46 and the year 2020. *)
Lemma get_statistics_unknown_is_empty_witness :
  (~ In 46 (map Disease.id DISEASES_DB)
   /\ get_statistics None (Some winter) (Some 46) = inr []
   /\ get_disease 46 = inl (HTTPException 404 (u "Заболевание не найдено")))
  /\ (~ In 2020 YEARS
      /\ get_statistics (Some 2020) (Some winter) (Some 1) = inr []).
Proof.
  assert (H46 : ~ In 46 (map Disease.id DISEASES_DB)).
  { rewrite disease_ids. intros H. apply in_map_iff in H.
    destruct H as [n [Hn Hin]]. apply in_seq in Hin. lia. }
  assert (H2020 : ~ In 2020 YEARS).
  { intros H. destruct H as [H|[H|[H|[]]]]; discriminate H. }
  split.
  - split; [exact H46|].
    exact (proj1 (get_statistics_unknown_is_empty None (Some winter) None 46)
                 H46).
  - split; [exact H2020|].
    exact (proj2 (get_statistics_unknown_is_empty None (Some winter) (Some 1)
                    2020) H2020).
Defined.

Lemma at_most_one_per_key (table : list StatisticItem.t)
    (k : Z * Z * Season) :
  NoDup (map key table) ->
  (List.length (filter (fun s => key_eqb (key s) k) table) <= 1)%nat.
Proof.
  induction table as [|s table IH]; cbn [filter map]; intros Hnd;
    [simpl; lia|].
  inversion Hnd as [|? ? Hs Hnd']; subst.
  destruct (key_eqb (key s) k) eqn:E; [|apply IH; exact Hnd'].
  assert (Hnone : filter (fun s' => key_eqb (key s') k) table = []).
  { apply filter_nothing. intros s' Hs'.
    destruct (key_eqb (key s') k) eqn:E'; [|reflexivity].
    exfalso. apply Hs.
    assert (Hk : key s = key s').
    { destruct (key s) as [[d1 y1] x1], (key s') as [[d2 y2] x2],
               k as [[d y] x].
      simpl in E, E'.
      apply andb_true_iff in E. destruct E as [E Ex].
      apply andb_true_iff in E. destruct E as [Ed Ey].
      apply andb_true_iff in E'. destruct E' as [E' Ex'].
      apply andb_true_iff in E'. destruct E' as [Ed' Ey'].
      apply Z.eqb_eq in Ed, Ey, Ed', Ey'.
      apply Season_eqb_eq in Ex, Ex'. congruence. }
    rewrite Hk. apply in_map. exact Hs'. }
  rewrite Hnone. simpl. lia.
Qed.

Lemma rows_by_year_season (d : Disease.t) (year : Z) (season : Season) :
  In year YEARS ->
  filter (fun s => (StatisticItem.year s =? year)
                   && Season_eqb (StatisticItem.season s) season)
         (Spec.rows d)
  = [StatisticItem.mk (Disease.id d) year season (Spec.cases d year season)].
Proof.
  intros Hy. destruct Hy as [<-|[<-|[<-|[]]]]; destruct season; reflexivity.
Qed.

(** X4: the three arguments together name a key of the table: the listing
    then returns at most one row, and for a disease of the dataset and a
    year of [YEARS] exactly the row of that disease, year and season, with
    the count of the generator formula. *)
Theorem get_statistics_by_key (year : Z) (season : Season) :
  (forall disease_id, exists rows,
      get_statistics (Some year) (Some season) (Some disease_id) = inr rows
      /\ (List.length rows <= 1)%nat)
  /\ (forall d, In d DISEASES_DB -> In year YEARS ->
        get_statistics (Some year) (Some season) (Some (Disease.id d))
        = inr [StatisticItem.mk (Disease.id d) year season
                                (Spec.cases d year season)]).
Proof.
  split.
  - intros disease_id. eexists.
    split; [apply get_statistics_selects|].
    pose proof statistics_keys_distinct as Hnd.
    revert Hnd. generalize STATISTICS_DB. intros table Hnd.
    rewrite (filter_ext _ (fun s => key_eqb (key s) (disease_id, year, season))).
    + apply at_most_one_per_key. exact Hnd.
    + intros s. unfold stat_selects, key_eqb, key.
      destruct (StatisticItem.year s =? year),
               (Season_eqb (StatisticItem.season s) season),
               (StatisticItem.disease_id s =? disease_id); reflexivity.
  - intros d Hd Hy. rewrite get_statistics_selects. apply f_equal.
    rewrite <- (rows_by_year_season d year season Hy).
    rewrite <- (filter_table DISEASES_DB d disease_ids_distinct Hd).
    rewrite <- statistics_table.
    generalize STATISTICS_DB. intros table.
    rewrite filter_filter. apply filter_ext. intros s.
    unfold stat_selects.
    destruct (StatisticItem.year s =? year),
             (Season_eqb (StatisticItem.season s) season),
             (StatisticItem.disease_id s =? Disease.id d); reflexivity.
Qed.

(** The rotavirus infection (id 7) in the summer of 2022. *)
Lemma get_statistics_by_key_witness :
  exists d,
    nth_error DISEASES_DB 6 = Some d
    /\ In d DISEASES_DB /\ In 2022 YEARS
    /\ get_statistics (Some 2022) (Some summer) (Some (Disease.id d))
       = inr [StatisticItem.mk (Disease.id d) 2022 summer
                               (Spec.cases d 2022 summer)].
Proof.
  destruct (nth_error DISEASES_DB 6) as [d|] eqn:E; [|discriminate E].
  exists d. split; [reflexivity|].
  assert (Hd : In d DISEASES_DB) by (eapply nth_error_In; exact E).
  assert (Hy : In 2022 YEARS) by (right; left; reflexivity).
  split; [exact Hd|]. split; [exact Hy|].
  exact (proj2 (get_statistics_by_key 2022 summer) d Hd Hy).
Defined.

(* ===================================================================== *)
(** * The generator on an arbitrary disease table *)
(* ===================================================================== *)

(** X5: whatever the disease table, when the load-time loop completes,
    every row of the generated table carries the id of a disease of the
    table, a year of 2021..2023 and a count that is not negative. *)
Theorem generated_rows_well_formed (db : list Disease.t)
    (table : list StatisticItem.t) :
  generate_statistics db = inr table ->
  Forall (fun s =>
            (exists d, In d db /\ Disease.id d = StatisticItem.disease_id s)
            /\ 2021 <= StatisticItem.year s <= 2023
            /\ 0 <= StatisticItem.cases s)
         table.
Proof.
  intros Hgen. pose proof (generate_statistics_ok db table Hgen) as Hok.
  rewrite Forall_forall in Hok. apply Forall_forall. intros s Hs.
  destruct (Hok s Hs) as [Hid [Hy Hc]].
  split; [|split; [|exact Hc]].
  - apply in_map_iff in Hid. destruct Hid as [d [Hd Hin]].
    exists d. split; assumption.
  - destruct Hy as [<-|[<-|[<-|[]]]]; lia.
Qed.

(** The table of the service. *)
Lemma generated_rows_well_formed_witness :
  generate_statistics DISEASES_DB = inr STATISTICS_DB
  /\ Forall (fun s =>
               (exists d, In d DISEASES_DB
                          /\ Disease.id d = StatisticItem.disease_id s)
               /\ 2021 <= StatisticItem.year s <= 2023
               /\ 0 <= StatisticItem.cases s)
            STATISTICS_DB.
Proof.
  split; [exact statistics_loaded|].
  exact (generated_rows_well_formed DISEASES_DB STATISTICS_DB
           statistics_loaded).
Defined.

(** A loop whose body appends [g x] to a projection of the state appends
    the concatenation of the [g x]. *)
Lemma for_each_appends {A S K : Type} (proj : S -> list K) (g : A -> list K)
    (body : A -> S -> Exc S) :
  (forall x s s', body x s = inr s' -> proj s' = proj s ++ g x) ->
  forall xs s s',
    for_each xs body s = inr s' -> proj s' = proj s ++ flat_map g xs.
Proof.
  intros Hbody xs.
  induction xs as [|x xs IH]; cbn [for_each flat_map]; intros s s' Hrun.
  - inversion Hrun; subst. symmetry. apply app_nil_r.
  - unfold bind in Hrun.
    destruct (body x s) as [e|s1] eqn:E; [discriminate|].
    rewrite (IH _ _ Hrun), (Hbody _ _ _ E). symmetry. apply app_assoc.
Qed.

Lemma season_coeffs_seasons (transmission : str) :
  map fst (season_coeffs transmission) = [winter; spring; summer; autumn].
Proof.
  unfold season_coeffs.
  destruct (Str.eqb transmission (u "Воздушно-капельный"));
    [cbn [map fst]; reflexivity|].
  destruct (Str.eqb transmission (u "Фекально-оральный"));
    cbn [map fst]; reflexivity.
Qed.

Lemma append_item_key (d : Disease.t) (year base_year : Z)
    (entry : Season * Float.t) (table table' : list StatisticItem.t) :
  append_item d year base_year entry table = inr table' ->
  map key table' = map key table ++ [(Disease.id d, year, fst entry)].
Proof.
  unfold append_item. destruct entry as [season k]. unfold bind.
  destruct (int_of_product base_year k) as [e|cases]; [discriminate|].
  unfold StatisticItem.new. destruct (0 <=? cases); [|discriminate].
  intros H. inversion H; subst. rewrite map_app. reflexivity.
Qed.

Lemma append_year_keys (d : Disease.t) (base year : Z)
    (table table' : list StatisticItem.t) :
  append_year d base year table = inr table' ->
  map key table'
  = map key table
    ++ map (fun season => (Disease.id d, year, season))
           [winter; spring; summer; autumn].
Proof.
  unfold append_year, bind.
  destruct (year_coeff year) as [e|yc]; [discriminate|].
  destruct (int_of_product base yc) as [e|base_year]; [discriminate|].
  intros Hrun.
  rewrite (for_each_appends (map key)
             (fun entry => [(Disease.id d, year, fst entry)])
             (append_item d year base_year)
             (fun x s s' => append_item_key d year base_year x s s')
             _ _ _ Hrun).
  f_equal. rewrite <- (season_coeffs_seasons (Disease.transmission d)).
  generalize (season_coeffs (Disease.transmission d)). intros coeffs.
  induction coeffs as [|c coeffs IH]; simpl; [|rewrite IH]; reflexivity.
Qed.

Lemma append_disease_keys (d : Disease.t)
    (table table' : list StatisticItem.t) :
  append_disease d table = inr table' ->
  map key table' = map key table ++ keys_of (Disease.id d).
Proof.
  unfold append_disease. intros Hrun.
  rewrite (for_each_appends (map key)
             (fun year => map (fun season => (Disease.id d, year, season))
                              [winter; spring; summer; autumn])
             (append_year d (25 + Disease.id d * 6))
             (fun x s s' => append_year_keys d _ x s s')
             _ _ _ Hrun).
  reflexivity.
Qed.

(** X6: whatever the disease table, when the load-time loop completes, the
    keys of the generated table are, disease after disease in table order,
    the twelve pairs of year and season in generation order; so the table
    has twelve rows for each disease. *)
Theorem generated_keys (db : list Disease.t) (table : list StatisticItem.t) :
  generate_statistics db = inr table ->
  map key table = flat_map (fun d => keys_of (Disease.id d)) db
  /\ List.length table = (12 * List.length db)%nat.
Proof.
  intros Hgen.
  assert (Hkeys : map key table = flat_map (fun d => keys_of (Disease.id d)) db).
  { unfold generate_statistics in Hgen.
    exact (for_each_appends (map key) (fun d => keys_of (Disease.id d))
             append_disease append_disease_keys _ _ _ Hgen). }
  split; [exact Hkeys|].
  rewrite <- (length_map key), Hkeys.
  clear. induction db as [|d db IH]; [reflexivity|].
  cbn [flat_map]. rewrite length_app, IH.
  cbn [List.length keys_of generation_order map]. lia.
Qed.

(** The table of the service has 540 rows. *)
Lemma generated_keys_witness :
  generate_statistics DISEASES_DB = inr STATISTICS_DB
  /\ map key STATISTICS_DB
     = flat_map (fun d => keys_of (Disease.id d)) DISEASES_DB
  /\ List.length STATISTICS_DB = (12 * List.length DISEASES_DB)%nat.
Proof.
  split; [exact statistics_loaded|].
  exact (generated_keys DISEASES_DB STATISTICS_DB statistics_loaded).
Defined.

(* ===================================================================== *)
(** * The symptom index *)
(* ===================================================================== *)

Lemma dict_get_set (m : list (Z * Symptom.t)) (k k' : Z) (v : Symptom.t) :
  dict_get (dict_set m k v) k' = if k =? k' then inr v else dict_get m k'.
Proof.
  induction m as [|[k0 v0] m IH]; simpl.
  - destruct (k =? k'); reflexivity.
  - destruct (k0 =? k) eqn:E0; simpl.
    + apply Z.eqb_eq in E0. subst k0.
      destruct (k =? k'); reflexivity.
    + rewrite IH. destruct (k0 =? k') eqn:E1; [|reflexivity].
      apply Z.eqb_eq in E1. subst k0. rewrite Z.eqb_sym, E0. reflexivity.
Qed.

Lemma find_last {A : Type} (f : A -> bool) (l : list A) (x : A) :
  find f (l ++ [x])
  = match find f l with
    | Some a => Some a
    | None => if f x then Some x else None
    end.
Proof.
  induction l as [|a l IH]; simpl; [reflexivity|].
  destruct (f a); [reflexivity | exact IH].
Qed.

(** A lookup in the index built from [xs] on top of [m]. *)
Lemma dict_get_fold (xs : list Symptom.t) (m : list (Z * Symptom.t)) (k : Z) :
  dict_get (fold_left (fun m s => dict_set m (Symptom.id s) s) xs m) k
  = match find (fun s => Symptom.id s =? k) (rev xs) with
    | Some s => inr s
    | None => dict_get m k
    end.
Proof.
  revert m. induction xs as [|x xs IH]; intros m; [reflexivity|].
  cbn [fold_left rev]. rewrite IH, find_last, dict_get_set.
  destruct (find _ (rev xs)); [reflexivity|].
  destruct (Symptom.id x =? k); reflexivity.
Qed.

Lemma symptom_ids_distinct : NoDup (map Symptom.id SYMPTOMS_DB).
Proof.
  apply (distinctb_NoDup Z.eqb); [exact Z.eqb_refl|]. vm_compute. reflexivity.
Qed.

Lemma symptom_lookup (s : Symptom.t) :
  In s SYMPTOMS_DB -> dict_get SYMPTOMS_BY_ID (Symptom.id s) = inr s.
Proof.
  intros Hs. unfold SYMPTOMS_BY_ID. rewrite dict_get_fold.
  destruct (find _ (rev SYMPTOMS_DB)) as [s'|] eqn:E.
  - apply find_some in E. destruct E as [Hs' Hid].
    apply Z.eqb_eq in Hid. apply in_rev in Hs'.
    rewrite (NoDup_map_inj Symptom.id SYMPTOMS_DB s' s
               symptom_ids_distinct Hs' Hs Hid).
    reflexivity.
  - exfalso. apply in_rev in Hs.
    pose proof (find_none _ _ E s Hs) as H. cbv beta in H.
    rewrite Z.eqb_refl in H. discriminate H.
Qed.

(** X7: the index built by the dict comprehension maps a key to the last
    symptom of the list that carries it and raises [KeyError] for a key
    that no symptom carries.  On the symptom table, whose ids are
    distinct, every symptom is found under its id. *)
Theorem symptom_index_lookup :
  (forall (xs : list Symptom.t) (k : Z),
      dict_get (fold_left (fun m s => dict_set m (Symptom.id s) s) xs []) k
      = match find (fun s => Symptom.id s =? k) (rev xs) with
        | Some s => inr s
        | None => inl KeyError
        end)
  /\ (forall s, In s SYMPTOMS_DB ->
                dict_get SYMPTOMS_BY_ID (Symptom.id s) = inr s)
  /\ (forall k, ~ In k (map Symptom.id SYMPTOMS_DB) ->
                dict_get SYMPTOMS_BY_ID k = inl KeyError).
Proof.
  split; [|split].
  - intros xs k. apply dict_get_fold.
  - exact symptom_lookup.
  - intros k Habs. unfold SYMPTOMS_BY_ID. rewrite dict_get_fold.
    destruct (find _ (rev SYMPTOMS_DB)) as [s|] eqn:E; [|reflexivity].
    apply find_some in E. destruct E as [Hs Hid].
    apply Z.eqb_eq in Hid. apply in_rev in Hs.
    exfalso. apply Habs. rewrite <- Hid. apply in_map. exact Hs.
Qed.

(** The fever (id 1) is found and the key 11 is missing. *)
Lemma symptom_index_lookup_witness :
  (exists s, nth_error SYMPTOMS_DB 0 = Some s
             /\ In s SYMPTOMS_DB
             /\ dict_get SYMPTOMS_BY_ID (Symptom.id s) = inr s)
  /\ (~ In 11 (map Symptom.id SYMPTOMS_DB)
      /\ dict_get SYMPTOMS_BY_ID 11 = inl KeyError).
Proof.
  split.
  - destruct (nth_error SYMPTOMS_DB 0) as [s|] eqn:E; [|discriminate E].
    exists s. split; [reflexivity|].
    assert (Hs : In s SYMPTOMS_DB) by (eapply nth_error_In; exact E).
    split; [exact Hs|].
    exact (proj1 (proj2 symptom_index_lookup) s Hs).
  - assert (H11 : ~ In 11 (map Symptom.id SYMPTOMS_DB)).
    { intros H. simpl in H.
      repeat (destruct H as [H|H]; [discriminate H|]). exact H. }
    split; [exact H11|].
    exact (proj2 (proj2 symptom_index_lookup) 11 H11).
Defined.

(** X8: every symptom that a disease of the dataset lists is a record of
    the symptom table, the one that the index holds under its id: each
    lookup in the literal of the disease table found its symptom. *)
Theorem disease_symptoms_resolved :
  Forall (fun d =>
            Forall (fun s => In s SYMPTOMS_DB
                             /\ dict_get SYMPTOMS_BY_ID (Symptom.id s) = inr s)
                   (Disease.symptoms d))
         DISEASES_DB.
Proof.
  pose proof symptoms_resolved as H.
  rewrite Forall_forall in H. apply Forall_forall. intros d Hd.
  specialize (H d Hd). rewrite Forall_forall in H.
  apply Forall_forall. intros s Hs.
  split; [apply H; exact Hs | apply symptom_lookup; apply H; exact Hs].
Qed.

(* ===================================================================== *)
(** * How the handlers fit together *)
(* ===================================================================== *)

Lemma search_by_symptom_inv (symptom_id : Z) (r : list DiseaseShort.t) :
  search_by_symptom symptom_id = inr r ->
  r = map to_short (filter (has_symptom symptom_id) DISEASES_DB)
  /\ exists d, In d DISEASES_DB /\ lists_symptom symptom_id d.
Proof.
  unfold search_by_symptom.
  destruct (filter (has_symptom symptom_id) DISEASES_DB) as [|x l] eqn:E;
    [discriminate|].
  intros H. split.
  - apply (f_equal loaded_list) in H. cbn [loaded_list ret] in H.
    symmetry. exact H.
  - assert (Hx : In x (filter (has_symptom symptom_id) DISEASES_DB))
      by (rewrite E; left; reflexivity).
    apply filter_In in Hx. destruct Hx as [Hd Hs].
    exists x. split; [exact Hd | apply has_symptom_iff; exact Hs].
Qed.

Lemma every_symptom_is_listed :
  forallb (fun s => existsb (has_symptom (Symptom.id s)) DISEASES_DB)
          SYMPTOMS_DB = true.
Proof. vm_compute. reflexivity. Qed.

(** X9: the search by symptom succeeds exactly for the ids of the symptoms
    that the symptom listing returns: each of them is listed by some
    disease, and a disease lists no other symptom. *)
Theorem search_succeeds_iff_symptom_known :
  exists symptoms,
    list_symptoms = inr symptoms
    /\ forall symptom_id,
         In symptom_id (map Symptom.id symptoms)
         <-> exists r, search_by_symptom symptom_id = inr r.
Proof.
  exists SYMPTOMS_DB. split; [reflexivity|].
  intros symptom_id. split.
  - intros Hin. apply in_map_iff in Hin. destruct Hin as [s [Hid Hs]].
    pose proof every_symptom_is_listed as Hall.
    rewrite forallb_forall in Hall. specialize (Hall s Hs).
    apply existsb_exists in Hall. destruct Hall as [d [Hd Hhas]].
    rewrite Hid in Hhas.
    unfold search_by_symptom.
    destruct (filter (has_symptom symptom_id) DISEASES_DB) as [|x l] eqn:E.
    + exfalso.
      assert (Hf : In d (filter (has_symptom symptom_id) DISEASES_DB))
        by (apply filter_In; split; assumption).
      rewrite E in Hf. exact Hf.
    + eexists. reflexivity.
  - intros [r Hr].
    destruct (search_by_symptom_inv _ _ Hr) as [_ [d [Hd [s [Hs Hid]]]]].
    pose proof symptoms_resolved as H. rewrite Forall_forall in H.
    specialize (H d Hd). rewrite Forall_forall in H.
    rewrite <- Hid. apply in_map. apply H. exact Hs.
Qed.

Lemma inr_inj {E A : Type} (a b : A) : @inr E A a = inr b -> a = b.
Proof. intros H. injection H as H. exact H. Qed.

Lemma Forall_map_filter {A B : Type} (f : A -> B) (p : A -> bool)
    (P : B -> Prop) (l : list A) :
  (forall a, In a l -> p a = true -> P (f a)) ->
  Forall P (map f (filter p l)).
Proof.
  intros H. apply Forall_forall. intros b Hb.
  apply in_map_iff in Hb. destruct Hb as [a [Hab Hf]].
  apply filter_In in Hf. destruct Hf as [Ha Hp].
  rewrite <- Hab. apply H; assumption.
Qed.

(** X10: every summary that the listing returns, whatever the filters, can
    be looked up: the lookup by its id succeeds, and the record found has
    the id, the name, the age group and the pathogen type that the summary
    shows. *)
Theorem listed_diseases_can_be_fetched (transmission : option str)
    (age_group : option AgeGroup) (pathogen_type q : option str)
    (r : list DiseaseShort.t) :
  list_diseases transmission age_group pathogen_type q = inr r ->
  Forall (fun short =>
            exists full,
              get_disease (DiseaseShort.id short) = inr full
              /\ DiseaseWithStats.id full = DiseaseShort.id short
              /\ DiseaseWithStats.name full = DiseaseShort.name short
              /\ DiseaseWithStats.age_group full
                 = DiseaseShort.age_group short
              /\ DiseaseWithStats.pathogen_type full
                 = DiseaseShort.pathogen_type short)
         r.
Proof.
  rewrite list_diseases_selects. intros Hr.
  apply inr_inj in Hr. subst r.
  apply Forall_map_filter. intros d Hd _.
  exists (attach_stats d).
  cbn [to_short DiseaseShort.id DiseaseShort.name DiseaseShort.age_group
       DiseaseShort.pathogen_type].
  split; [exact (get_disease_found d Hd)|].
  unfold attach_stats.
  cbn [DiseaseWithStats.id DiseaseWithStats.name DiseaseWithStats.age_group
       DiseaseWithStats.pathogen_type].
  repeat split.
Qed.

(** The listing of the bacterial diseases. *)
Lemma listed_diseases_can_be_fetched_witness :
  exists r,
    list_diseases None None (Some (u "бактерия")) None = inr r
    /\ Forall (fun short =>
                 exists full,
                   get_disease (DiseaseShort.id short) = inr full
                   /\ DiseaseWithStats.id full = DiseaseShort.id short
                   /\ DiseaseWithStats.name full = DiseaseShort.name short
                   /\ DiseaseWithStats.age_group full
                      = DiseaseShort.age_group short
                   /\ DiseaseWithStats.pathogen_type full
                      = DiseaseShort.pathogen_type short)
              r.
Proof.
  eexists. split; [apply list_diseases_selects|].
  exact (listed_diseases_can_be_fetched None None (Some (u "бактерия")) None
           _ (list_diseases_selects None None (Some (u "бактерия")) None)).
Defined.

(** X11: every summary that the search by symptom returns can be looked
    up, and the record found lists a symptom with the id searched for. *)
Theorem found_diseases_list_the_symptom (symptom_id : Z)
    (r : list DiseaseShort.t) :
  search_by_symptom symptom_id = inr r ->
  Forall (fun short =>
            exists full,
              get_disease (DiseaseShort.id short) = inr full
              /\ to_short (record_of full) = short
              /\ exists s, In s (DiseaseWithStats.symptoms full)
                           /\ Symptom.id s = symptom_id)
         r.
Proof.
  intros Hr. destruct (search_by_symptom_inv _ _ Hr) as [-> _].
  apply Forall_map_filter. intros d Hd Hhas.
  exists (attach_stats d). cbn [to_short DiseaseShort.id].
  split; [exact (get_disease_found d Hd)|].
  split; [rewrite record_of_attach_stats; reflexivity|].
  apply has_symptom_iff in Hhas. exact Hhas.
Qed.

(** The diseases that list a conjunctivitis (id 9). *)
Lemma found_diseases_list_the_symptom_witness :
  exists r,
    search_by_symptom 9 = inr r
    /\ Forall (fun short =>
                 exists full,
                   get_disease (DiseaseShort.id short) = inr full
                   /\ to_short (record_of full) = short
                   /\ exists s, In s (DiseaseWithStats.symptoms full)
                                /\ Symptom.id s = 9)
              r.
Proof.
  destruct (search_by_symptom 9) as [e|r] eqn:E.
  - exfalso. vm_compute in E. discriminate E.
  - exists r. split; [reflexivity|].
    exact (found_diseases_list_the_symptom 9 r E).
Defined.

(* ===================================================================== *)
(** * Text arguments of the listing *)
(* ===================================================================== *)

Lemma listing_ext (db : list Disease.t) (p p' : Disease.t -> bool) :
  (forall d, p d = p' d) ->
  @inr PyExc _ (map to_short (filter p db))
  = inr (map to_short (filter p' db)).
Proof. intros H. rewrite (filter_ext _ _ H). reflexivity. Qed.

(** X12: the listing does not tell apart two non-empty values of a text
    argument that become equal once they are trimmed and their capital
    letters of Basic Latin, Latin-1 and Cyrillic (U+0400..U+042F, the
    letters that [Str.lower] maps) are lower-cased: such values give the
    same answer as [transmission], as [pathogen_type] and as [q], whatever
    the other arguments. *)
Theorem text_arguments_are_normalised (v v' : str)
    (transmission pathogen_type q : option str)
    (age_group : option AgeGroup) :
  Str.truthy v = true -> Str.truthy v' = true ->
  Str.lower (Str.strip v) = Str.lower (Str.strip v') ->
  list_diseases (Some v) age_group pathogen_type q
  = list_diseases (Some v') age_group pathogen_type q
  /\ list_diseases transmission age_group (Some v) q
     = list_diseases transmission age_group (Some v') q
  /\ list_diseases transmission age_group pathogen_type (Some v)
     = list_diseases transmission age_group pathogen_type (Some v').
Proof.
  intros Hv Hv' Heq. rewrite !list_diseases_selects.
  generalize DISEASES_DB. intros db.
  repeat split; apply listing_ext; intros d;
    unfold selects, text_filter; rewrite Hv, Hv', Heq; reflexivity.
Qed.

(** The values " ВИРУС " and "вирус". *)
Lemma text_arguments_are_normalised_witness :
  (Str.truthy (u " ВИРУС ") = true /\ Str.truthy (u "вирус") = true
   /\ Str.lower (Str.strip (u " ВИРУС ")) = Str.lower (Str.strip (u "вирус")))
  /\ list_diseases (Some (u " ВИРУС ")) None None None
     = list_diseases (Some (u "вирус")) None None None
  /\ list_diseases None None (Some (u " ВИРУС ")) None
     = list_diseases None None (Some (u "вирус")) None
  /\ list_diseases None None None (Some (u " ВИРУС "))
     = list_diseases None None None (Some (u "вирус")).
Proof.
  assert (H1 : Str.truthy (u " ВИРУС ") = true) by reflexivity.
  assert (H2 : Str.truthy (u "вирус") = true) by reflexivity.
  assert (H3 : Str.lower (Str.strip (u " ВИРУС "))
               = Str.lower (Str.strip (u "вирус")))
    by (vm_compute; reflexivity).
  split; [split; [exact H1 | split; [exact H2 | exact H3]]|].
  exact (text_arguments_are_normalised (u " ВИРУС ") (u "вирус")
           None None None None H1 H2 H3).
Defined.

Lemma text_fields_not_empty :
  forallb (fun d => Str.truthy (Disease.transmission d)
                    && Str.truthy (Disease.pathogen_type d))
          DISEASES_DB = true.
Proof. vm_compute. reflexivity. Qed.

Lemma eqb_empty_lower (field : str) :
  Str.truthy field = true -> Str.eqb (Str.lower []) (Str.lower field) = false.
Proof. destruct field; [discriminate | reflexivity]. Qed.

Lemma contains_empty (s : str) : Str.contains [] s = true.
Proof. destruct s; reflexivity. Qed.

(** X13: a text argument that is not empty but consists of white space
    only is trimmed to the empty string.  As [transmission] or
    [pathogen_type] it then equals no field and the answer is the empty
    list; as [q] it occurs in every name and constrains nothing. *)
Theorem blank_text_argument (v : str) (transmission pathogen_type q : option str)
    (age_group : option AgeGroup) :
  Str.truthy v = true -> Str.strip v = [] ->
  list_diseases (Some v) age_group pathogen_type q = inr []
  /\ list_diseases transmission age_group (Some v) q = inr []
  /\ list_diseases transmission age_group pathogen_type (Some v)
     = list_diseases transmission age_group pathogen_type None.
Proof.
  intros Hv Hs. rewrite !list_diseases_selects.
  pose proof text_fields_not_empty as Hne. rewrite forallb_forall in Hne.
  split; [|split].
  - rewrite filter_nothing; [reflexivity|].
    intros d Hd. specialize (Hne d Hd). apply andb_true_iff in Hne.
    unfold selects, text_filter. rewrite Hv, Hs.
    rewrite (eqb_empty_lower _ (proj1 Hne)). reflexivity.
  - rewrite filter_nothing; [reflexivity|].
    intros d Hd. specialize (Hne d Hd). apply andb_true_iff in Hne.
    unfold selects. unfold text_filter at 2. rewrite Hv, Hs.
    rewrite (eqb_empty_lower _ (proj2 Hne)).
    rewrite andb_false_r. reflexivity.
  - apply listing_ext. intros d.
    unfold selects. unfold text_filter at 3.
    rewrite Hv, Hs. cbn [Str.lower map]. rewrite contains_empty.
    reflexivity.
Qed.

(** The value of two blanks. *)
Lemma blank_text_argument_witness :
  (Str.truthy (u "  ") = true /\ Str.strip (u "  ") = [])
  /\ list_diseases (Some (u "  ")) None None None = inr []
  /\ list_diseases None None (Some (u "  ")) None = inr []
  /\ list_diseases None None None (Some (u "  "))
     = list_diseases None None None None.
Proof.
  assert (H1 : Str.truthy (u "  ") = true) by reflexivity.
  assert (H2 : Str.strip (u "  ") = []) by reflexivity.
  split; [split; [exact H1 | exact H2]|].
  exact (blank_text_argument (u "  ") None None None None H1 H2).
Defined.

(* ===================================================================== *)
(** * Filters of the listing, one by one and together *)
(* ===================================================================== *)

Lemma in_short_filter (db : list Disease.t) (p : Disease.t -> bool)
    (d : Disease.t) :
  NoDup (map Disease.id db) -> In d db ->
  (In (to_short d) (map to_short (filter p db)) <-> p d = true).
Proof.
  intros Hnd Hd. split.
  - intros Hin. apply in_map_iff in Hin. destruct Hin as [d' [Hshort Hf]].
    apply filter_In in Hf. destruct Hf as [Hd' Hp].
    assert (Hid : Disease.id d' = Disease.id d)
      by (apply (f_equal DiseaseShort.id) in Hshort; exact Hshort).
    rewrite <- (NoDup_map_inj Disease.id db d' d Hnd Hd' Hd Hid). exact Hp.
  - intros Hp. apply in_map. apply filter_In. split; assumption.
Qed.

Lemma selects_split (transmission : option str) (age_group : option AgeGroup)
    (pathogen_type q : option str) (d : Disease.t) :
  selects transmission age_group pathogen_type q d
  = selects transmission None None None d
    && selects None age_group None None d
    && selects None None pathogen_type None d
    && selects None None None q d.
Proof.
  unfold selects. cbn [text_filter].
  destruct (text_filter transmission _),
           (match age_group with Some _ => _ | None => _ end),
           (text_filter pathogen_type _), (text_filter q _); reflexivity.
Qed.

Lemma filters_intersect_on (db : list Disease.t) (transmission : option str)
    (age_group : option AgeGroup) (pathogen_type q : option str)
    (short : DiseaseShort.t) :
  NoDup (map Disease.id db) ->
  (In short (map to_short
               (filter (selects transmission age_group pathogen_type q) db))
   <-> In short (map to_short (filter (selects transmission None None None) db))
       /\ In short (map to_short (filter (selects None age_group None None) db))
       /\ In short
            (map to_short (filter (selects None None pathogen_type None) db))
       /\ In short (map to_short (filter (selects None None None q) db))).
Proof.
  intros Hnd. split.
  - intros Hin. apply in_map_iff in Hin. destruct Hin as [d [Hshort Hf]].
    apply filter_In in Hf. destruct Hf as [Hd Hsel]. subst short.
    rewrite selects_split in Hsel.
    apply andb_true_iff in Hsel. destruct Hsel as [Hsel H4].
    apply andb_true_iff in Hsel. destruct Hsel as [Hsel H3].
    apply andb_true_iff in Hsel. destruct Hsel as [H1 H2].
    repeat split; apply in_map; apply filter_In; split; assumption.
  - intros [H1 [H2 [H3 H4]]].
    apply in_map_iff in H1. destruct H1 as [d [Hshort Hf]].
    apply filter_In in Hf. destruct Hf as [Hd H1]. subst short.
    apply (in_short_filter db _ d Hnd Hd) in H2.
    apply (in_short_filter db _ d Hnd Hd) in H3.
    apply (in_short_filter db _ d Hnd Hd) in H4.
    apply in_map. apply filter_In. split; [exact Hd|].
    rewrite selects_split, H1, H2, H3, H4. reflexivity.
Qed.

(** X14: the filters of the listing combine by intersection: a summary is
    in the answer to a call with several filters exactly when it is in the
    answer to each of the four calls that keep one of the filters. *)
Theorem filters_intersect (transmission : option str)
    (age_group : option AgeGroup) (pathogen_type q : option str) :
  exists r r1 r2 r3 r4,
    list_diseases transmission age_group pathogen_type q = inr r
    /\ list_diseases transmission None None None = inr r1
    /\ list_diseases None age_group None None = inr r2
    /\ list_diseases None None pathogen_type None = inr r3
    /\ list_diseases None None None q = inr r4
    /\ forall short,
         In short r
         <-> In short r1 /\ In short r2 /\ In short r3 /\ In short r4.
Proof.
  exists (map to_short
            (filter (selects transmission age_group pathogen_type q)
                    DISEASES_DB)),
         (map to_short (filter (selects transmission None None None)
                               DISEASES_DB)),
         (map to_short (filter (selects None age_group None None)
                               DISEASES_DB)),
         (map to_short (filter (selects None None pathogen_type None)
                               DISEASES_DB)),
         (map to_short (filter (selects None None None q) DISEASES_DB)).
  do 5 (split; [apply list_diseases_selects|]).
  intros short. apply filters_intersect_on. exact disease_ids_distinct.
Qed.

(* ===================================================================== *)
(** * The labels of the filter metadata, used as filters *)
(* ===================================================================== *)

Lemma label_listing (db : list Disease.t) (f : Disease.t -> str)
    (sel : str -> Disease.t -> bool) (label : str) :
  labels_select_exactly db f sel = true ->
  In label (sorted (set_of (map f db))) ->
  filter (sel label) db = filter (fun d => Str.eqb (f d) label) db
  /\ filter (fun d => Str.eqb (f d) label) db <> [].
Proof.
  intros Hall Hin.
  apply (proj2 (proj2 (sorted_set_of_spec (map f db)))) in Hin.
  apply in_map_iff in Hin. destruct Hin as [d0 [<- Hd0]].
  unfold labels_select_exactly in Hall. rewrite forallb_forall in Hall.
  specialize (Hall d0 Hd0). rewrite forallb_forall in Hall.
  split.
  - apply filter_ext_in. intros d Hd.
    apply Bool.eqb_prop. exact (Hall d Hd).
  - intros Hnil.
    assert (Hf : In d0 (filter (fun d => Str.eqb (f d) (f d0)) db))
      by (apply filter_In; split; [exact Hd0 | apply Str_eqb_refl]).
    rewrite Hnil in Hf. exact Hf.
Qed.

Lemma label_origin (db : list Disease.t) (f : Disease.t -> str) (label : str) :
  In label (sorted (set_of (map f db))) ->
  exists d0, In d0 db /\ f d0 = label.
Proof.
  intros Hin.
  apply (proj2 (proj2 (sorted_set_of_spec (map f db)))) in Hin.
  apply in_map_iff in Hin. destruct Hin as [d0 [Hlabel Hd0]].
  exists d0. split; assumption.
Qed.

Lemma map_not_nil {A B : Type} (f : A -> B) (l : list A) :
  l <> [] -> map f l <> [].
Proof. destruct l; [congruence | discriminate]. Qed.

Lemma transmission_labels_exact :
  labels_select_exactly DISEASES_DB Disease.transmission
    (fun label => selects (Some label) None None None) = true.
Proof. vm_compute. reflexivity. Qed.

Lemma pathogen_type_labels_exact :
  labels_select_exactly DISEASES_DB Disease.pathogen_type
    (fun label => selects None None (Some label) None) = true.
Proof. vm_compute. reflexivity. Qed.

(** X15: every label that the filter metadata offers works as a filter of
    the listing.  A transmission or pathogen-type label selects exactly the
    diseases whose field is that label, and at least one; an age-group
    label is the value of an age group whose listing is not empty. *)
Theorem filter_meta_labels_select :
  exists age_groups transmissions pathogen_types,
    filter_meta = [ (u "age_groups", age_groups);
                    (u "transmissions", transmissions);
                    (u "pathogen_types", pathogen_types) ]
    /\ Forall (fun label =>
                 exists r,
                   list_diseases (Some label) None None None = inr r
                   /\ r <> []
                   /\ r = map to_short
                            (filter (fun d =>
                                       Str.eqb (Disease.transmission d) label)
                                    DISEASES_DB))
              transmissions
    /\ Forall (fun label =>
                 exists r,
                   list_diseases None None (Some label) None = inr r
                   /\ r <> []
                   /\ r = map to_short
                            (filter (fun d =>
                                       Str.eqb (Disease.pathogen_type d) label)
                                    DISEASES_DB))
              pathogen_types
    /\ Forall (fun label =>
                 exists a r,
                   AgeGroup_value a = label
                   /\ list_diseases None (Some a) None None = inr r
                   /\ r <> [])
              age_groups.
Proof.
  exists (sorted (set_of (map (fun d => AgeGroup_value (Disease.age_group d))
                              DISEASES_DB))),
         (sorted (set_of (map Disease.transmission DISEASES_DB))),
         (sorted (set_of (map Disease.pathogen_type DISEASES_DB))).
  split; [reflexivity|]. split; [|split].
  - apply Forall_forall. intros label Hin.
    destruct (label_listing DISEASES_DB Disease.transmission _ label
                transmission_labels_exact Hin) as [Heq Hne].
    eexists. split; [apply list_diseases_selects|].
    rewrite Heq. split; [apply map_not_nil; exact Hne | reflexivity].
  - apply Forall_forall. intros label Hin.
    destruct (label_listing DISEASES_DB Disease.pathogen_type _ label
                pathogen_type_labels_exact Hin) as [Heq Hne].
    eexists. split; [apply list_diseases_selects|].
    rewrite Heq. split; [apply map_not_nil; exact Hne | reflexivity].
  - apply Forall_forall. intros label Hin.
    destruct (label_origin DISEASES_DB
                (fun d => AgeGroup_value (Disease.age_group d)) label Hin)
      as [d0 [Hd0 Hlabel]].
    exists (Disease.age_group d0),
           (by_age_group DISEASES_DB (Disease.age_group d0)).
    split; [exact Hlabel|].
    split; [apply list_diseases_by_age_group|].
    intros Hnil.
    assert (Hd : In (to_short d0)
                    (by_age_group DISEASES_DB (Disease.age_group d0)))
      by (apply by_age_group_In; [exact Hd0 | reflexivity]).
    rewrite Hnil in Hd. exact Hd.
Qed.

(* ===================================================================== *)
(** * A load that is rejected *)
(* ===================================================================== *)

Lemma append_disease_run (d : Disease.t) (table : list StatisticItem.t) :
  append_disease d table
  = run_disease (Disease.id d) (season_coeffs (Disease.transmission d)) table.
Proof. reflexivity. Qed.

Lemma is_ValidationError_eq {A : Type} (c : Exc A) :
  is_ValidationError c = true -> c = inl ValidationError.
Proof. destruct c as [[]|]; simpl; congruence. Qed.

Lemma rejected_ids_In (i : Z) : -1000 <= i <= -5 -> In i rejected_ids.
Proof.
  intros H. unfold rejected_ids. apply in_map_iff.
  exists (Z.to_nat (- i)). split; [lia|]. apply in_seq. lia.
Qed.

Lemma rejected_ids_run :
  forallb (fun i =>
             forallb (fun route =>
                        is_ValidationError
                          (run_disease i (season_coeffs route) []))
                     [u "Воздушно-капельный"; u "Фекально-оральный"; []])
          rejected_ids = true.
Proof. vm_compute. reflexivity. Qed.

Lemma season_coeffs_cases (transmission : str) :
  exists route,
    In route [u "Воздушно-капельный"; u "Фекально-оральный"; []]
    /\ season_coeffs transmission = season_coeffs route.
Proof.
  destruct (Str.eqb transmission (u "Воздушно-капельный")) eqn:E1.
  - apply Str_eqb_eq in E1. subst transmission.
    eexists. split; [left; reflexivity | reflexivity].
  - destruct (Str.eqb transmission (u "Фекально-оральный")) eqn:E2.
    + apply Str_eqb_eq in E2. subst transmission.
      eexists. split; [right; left; reflexivity | reflexivity].
    + exists []. split; [right; right; left; reflexivity|].
      unfold season_coeffs. rewrite E1, E2. reflexivity.
Qed.

(** X16: the generator does have an error path.  A disease with an id
    from -1000 to -5 has a negative base, its first count is negative, the
    constructor of the row rejects it, and the load-time loop stops with
    [ValidationError], whatever the route of the disease and whatever
    follows it in the table. *)
Theorem negative_base_aborts_load (d : Disease.t) (db : list Disease.t) :
  -1000 <= Disease.id d <= -5 ->
  generate_statistics (d :: db) = inl ValidationError.
Proof.
  intros Hid. unfold generate_statistics. cbn [for_each].
  rewrite append_disease_run.
  destruct (season_coeffs_cases (Disease.transmission d)) as [route [Hr ->]].
  pose proof rejected_ids_run as Hall. rewrite forallb_forall in Hall.
  specialize (Hall _ (rejected_ids_In _ Hid)).
  rewrite forallb_forall in Hall. specialize (Hall route Hr).
  rewrite (is_ValidationError_eq _ Hall). reflexivity.
Qed.

(** A disease with the id -5 in front of the table of the service. *)
Lemma negative_base_aborts_load_witness :
  -1000 <= -5 <= -5
  /\ generate_statistics
       (Disease.mk (-5) (u "X") (u "Вирус") (u "Контактный") children [] None
        :: DISEASES_DB)
     = inl ValidationError.
Proof.
  assert (H : -1000 <= -5 <= -5) by lia.
  split; [exact H|].
  exact (negative_base_aborts_load
           (Disease.mk (-5) (u "X") (u "Вирус") (u "Контактный") children []
                       None)
           DISEASES_DB H).
Defined.
